(** * Airline management API: shallow embedding of the Express route handlers

    Every handler of [routes/*.js] reads the PostgreSQL tables through
    parameterised SELECTs, decides a response, and then issues INSERT,
    UPDATE or DELETE statements.  We embed the database as eight tables of
    rows, SQL statements as data executed by [exec], and each handler as a
    function from the current database (and the request) to the response it
    sends together with the write statements it executes, in order.

    Values: a request-body field or a column is [value := option string];
    [None] is JS [undefined]/[null] and SQL [NULL].  Identifiers are the uuid
    strings that [uuidv4()] produces; the handlers receive the generated id
    (and, for bookings, the [new Date()] timestamp) as arguments.  Database
    infrastructure failures (the [catch] branches answering 500) are not
    modelled: every statement succeeds.  Request-body fields are modelled as
    strings only: a JSON number or boolean in a body, whose JS truthiness can
    differ from that of the text pg stores for it ([0] is falsy, the stored
    '0' is not), is outside the model. *)

From Stdlib Require Import String Ascii List ZArith Bool Lia.
Import ListNotations.
Open Scope string_scope.

(** ** Values, rows, tables *)

Definition value := option string.
Definition row := list (string * value).

(** Column lookup in a row (or field lookup in a request body: JS
    destructuring of a missing key yields [undefined]). *)
Fixpoint col (r : row) (c : string) : value :=
  match r with
  | [] => None
  | (k, v) :: r' => if String.eqb k c then v else col r' c
  end.

Fixpoint has_col (r : row) (c : string) : bool :=
  match r with
  | [] => false
  | (k, _) :: r' => String.eqb k c || has_col r' c
  end.

(** JS truthiness of a body field: [undefined], [null] and [""] are falsy. *)
Definition truthy (v : value) : bool :=
  match v with
  | Some s => negb (String.eqb s "")
  | None => false
  end.

(** JS [===] on values (strings, or [null] as returned by pg for NULL). *)
Definition js_strict_eq (a b : value) : bool :=
  match a, b with
  | Some x, Some y => String.eqb x y
  | None, None => true
  | _, _ => false
  end.

(** SQL [col = $n]: comparison with NULL is never true. *)
Definition sql_eq (a b : value) : bool :=
  match a, b with
  | Some x, Some y => String.eqb x y
  | _, _ => false
  end.

(** SQL [col != $n]. *)
Definition sql_neq (a b : value) : bool :=
  match a, b with
  | Some x, Some y => negb (String.eqb x y)
  | _, _ => false
  end.

Inductive table :=
| airline | airport | aircraft | flight | passenger | booking
| crew_member | flight_crew.

Record db := mkdb {
  t_airline : list row;
  t_airport : list row;
  t_aircraft : list row;
  t_flight : list row;
  t_passenger : list row;
  t_booking : list row;
  t_crew_member : list row;
  t_flight_crew : list row
}.

Definition rows (d : db) (t : table) : list row :=
  match t with
  | airline => t_airline d
  | airport => t_airport d
  | aircraft => t_aircraft d
  | flight => t_flight d
  | passenger => t_passenger d
  | booking => t_booking d
  | crew_member => t_crew_member d
  | flight_crew => t_flight_crew d
  end.

Definition set_rows (d : db) (t : table) (rs : list row) : db :=
  match d with
  | mkdb al ap ac fl pa bo cm fc =>
    match t with
    | airline => mkdb rs ap ac fl pa bo cm fc
    | airport => mkdb al rs ac fl pa bo cm fc
    | aircraft => mkdb al ap rs fl pa bo cm fc
    | flight => mkdb al ap ac rs pa bo cm fc
    | passenger => mkdb al ap ac fl rs bo cm fc
    | booking => mkdb al ap ac fl pa rs cm fc
    | crew_member => mkdb al ap ac fl pa bo rs fc
    | flight_crew => mkdb al ap ac fl pa bo cm rs
    end
  end.

(** ** SQL statements *)

(** [WHERE c = $n] *)
Definition by_col (c : string) (p : value) : row -> bool :=
  fun r => sql_eq (col r c) p.

(** [SELECT * FROM t WHERE ...] *)
Definition select_where (d : db) (t : table) (w : row -> bool) : list row :=
  filter w (rows d t).

(** [SELECT COUNT of t WHERE ...], after [parseInt]. *)
Definition count_where (d : db) (t : table) (w : row -> bool) : nat :=
  length (select_where d t w).

(** [SET c1 = v1, ...]: overwrite the listed columns of a row. *)
Definition set_cols (s : row) (r : row) : row :=
  map (fun kv => let '(k, v) := kv in
                 (k, if has_col s k then col s k else v)) r.

Inductive stmt :=
| Insert (t : table) (r : row)
| Update (t : table) (w : row -> bool) (s : row)
| Delete (t : table) (w : row -> bool).

Definition exec (d : db) (s : stmt) : db :=
  match s with
  | Insert t r => set_rows d t (rows d t ++ [r])%list
  | Update t w s => set_rows d t (map (fun r => if w r then set_cols s r else r) (rows d t))
  | Delete t w => set_rows d t (filter (fun r => negb (w r)) (rows d t))
  end.

Definition exec_all (d : db) (ss : list stmt) : db := fold_left exec ss d.

(** [UPDATE ... RETURNING *]: the rows the statement rewrites. *)
Definition update_returning (d : db) (t : table) (w : row -> bool) (s : row) : list row :=
  map (set_cols s) (select_where d t w).

(** ** Responses *)

Inductive payload :=
| PRow (r : row)
| PCounts (cs : list (string * nat)).

Record response := mkresp {
  code : Z;
  message : string;
  data : option payload
}.

Definition reply (c : Z) (m : string) : response := mkresp c m None.

(** [res.status(c).json({ message: m, data: rows[0] })] *)
Definition reply_row (c : Z) (m : string) (rs : list row) : response :=
  mkresp c m (match rs with r :: _ => Some (PRow r) | [] => None end).

Definition handled := (response * list stmt)%type.

(** ** Route handlers *)

Section Handlers.

(** [new Date(s).valueOf()]: the time value in milliseconds, [None] for an
    Invalid Date (NaN).  Date-string parsing belongs to the JS engine, so the
    handlers are parametric in it. *)
Variable date_value : string -> option Z.

Definition js_date (v : value) : option Z :=
  match v with
  | Some s => date_value s
  | None => None
  end.

(** [a >= b] on two Date objects: compares their time values; any comparison
    involving NaN is false. *)
Definition js_date_ge (a b : option Z) : bool :=
  match a, b with
  | Some x, Some y => (y <=? x)%Z
  | _, _ => false
  end.

(** *** routes/flights.js *)

(** The validation sequence that [router.post('/')] (lines 99-141) and
    [router.put('/:id')] (lines 177-219) both contain verbatim; [Some m] is
    the 400 answer with message [m]. *)
Definition flight_checks (d : db) (body : row) : option string :=
  let flight_number := col body "flight_number" in
  let departure_airport_id := col body "departure_airport_id" in
  let arrival_airport_id := col body "arrival_airport_id" in
  let departure_time := col body "departure_time" in
  let arrival_time := col body "arrival_time" in
  let aircraft_id := col body "aircraft_id" in
  let airline_id := col body "airline_id" in
  if negb (truthy flight_number) || negb (truthy departure_airport_id)
     || negb (truthy arrival_airport_id) || negb (truthy departure_time)
     || negb (truthy arrival_time) || negb (truthy aircraft_id)
     || negb (truthy airline_id)
  then Some "All flight details are required"
  else if js_strict_eq departure_airport_id arrival_airport_id
  then Some "Departure and arrival airports must be different"
  else
    let departureDate := js_date departure_time in
    let arrivalDate := js_date arrival_time in
    if js_date_ge departureDate arrivalDate
    then Some "Departure time must be before arrival time"
    else
      let departureAirport := select_where d airport (by_col "id" departure_airport_id) in
      let arrivalAirport := select_where d airport (by_col "id" arrival_airport_id) in
      let aircraft_rows := select_where d aircraft (by_col "id" aircraft_id) in
      let airline_rows := select_where d airline (by_col "id" airline_id) in
      if Nat.eqb (length departureAirport) 0 then Some "Departure airport does not exist"
      else if Nat.eqb (length arrivalAirport) 0 then Some "Arrival airport does not exist"
      else if Nat.eqb (length aircraft_rows) 0 then Some "Aircraft does not exist"
      else if Nat.eqb (length airline_rows) 0 then Some "Airline does not exist"
      else if negb (js_strict_eq (col (hd [] aircraft_rows) "airline_id") airline_id)
      then Some "Aircraft does not belong to the specified airline"
      else None.

(** [router.post('/')] of routes/flights.js. *)
Definition flights_post (d : db) (new_id : string) (body : row) : handled :=
  match flight_checks d body with
  | Some m => (reply 400 m, [])
  | None =>
    let status := col body "status" in
    let r := [("id", Some new_id);
              ("flight_number", col body "flight_number");
              ("departure_airport_id", col body "departure_airport_id");
              ("arrival_airport_id", col body "arrival_airport_id");
              ("departure_time", col body "departure_time");
              ("arrival_time", col body "arrival_time");
              ("aircraft_id", col body "aircraft_id");
              ("airline_id", col body "airline_id");
              ("status", if truthy status then status else Some "Scheduled")] in
    (reply_row 201 "Flight created successfully" [r], [Insert flight r])
  end.

(** [router.put('/:id')] of routes/flights.js. *)
Definition flights_put (d : db) (id : string) (body : row) : handled :=
  let flight_rows := select_where d flight (by_col "id" (Some id)) in
  if Nat.eqb (length flight_rows) 0 then (reply 404 "Flight not found", [])
  else
    match flight_checks d body with
    | Some m => (reply 400 m, [])
    | None =>
      let s := [("flight_number", col body "flight_number");
                ("departure_airport_id", col body "departure_airport_id");
                ("arrival_airport_id", col body "arrival_airport_id");
                ("departure_time", col body "departure_time");
                ("arrival_time", col body "arrival_time");
                ("aircraft_id", col body "aircraft_id");
                ("airline_id", col body "airline_id");
                ("status", col body "status")] in
      let w := by_col "id" (Some id) in
      (reply_row 200 "Flight updated successfully" (update_returning d flight w s),
       [Update flight w s])
    end.

(** [router.delete('/:id')] of routes/flights.js. *)
Definition flights_delete (d : db) (id : string) : handled :=
  let flight_rows := select_where d flight (by_col "id" (Some id)) in
  if Nat.eqb (length flight_rows) 0 then (reply 404 "Flight not found", [])
  else
    let relatedBookings := count_where d booking (by_col "flight_id" (Some id)) in
    if Nat.ltb 0 relatedBookings
    then (mkresp 400 "Cannot delete flight with related bookings"
            (Some (PCounts [("bookings", relatedBookings)])), [])
    else
      let relatedCrewAssignments := count_where d flight_crew (by_col "flight_id" (Some id)) in
      ((reply 200 "Flight deleted successfully"),
       ((if Nat.ltb 0 relatedCrewAssignments
         then [Delete flight_crew (by_col "flight_id" (Some id))] else [])
        ++ [Delete flight (by_col "id" (Some id))])%list).

(** *** routes/airlines.js (src/unnamed/part_004) *)

Definition airlines_post (new_id : string) (body : row) : handled :=
  let name := col body "name" in
  if negb (truthy name) then (reply 400 "Airline name is required", [])
  else
    let r := [("id", Some new_id); ("name", name);
              ("iata_code", col body "iata_code"); ("country", col body "country");
              ("founded_year", col body "founded_year")] in
    (reply_row 201 "Airline created successfully" [r], [Insert airline r]).

(** The UPDATE runs first; its empty [RETURNING] result is what answers 404. *)
Definition airlines_put (d : db) (id : string) (body : row) : handled :=
  let name := col body "name" in
  if negb (truthy name) then (reply 400 "Airline name is required", [])
  else
    let s := [("name", name); ("iata_code", col body "iata_code");
              ("country", col body "country"); ("founded_year", col body "founded_year")] in
    let w := by_col "id" (Some id) in
    let updatedAirline := update_returning d airline w s in
    if Nat.eqb (length updatedAirline) 0
    then (reply 404 "Airline not found", [Update airline w s])
    else (reply_row 200 "Airline updated successfully" updatedAirline, [Update airline w s]).

Definition airlines_delete (d : db) (id : string) : handled :=
  let airline_rows := select_where d airline (by_col "id" (Some id)) in
  if Nat.eqb (length airline_rows) 0 then (reply 404 "Airline not found", [])
  else
    let relatedAircraft := count_where d aircraft (by_col "airline_id" (Some id)) in
    let relatedFlights := count_where d flight (by_col "airline_id" (Some id)) in
    let relatedCrewMembers := count_where d crew_member (by_col "airline_id" (Some id)) in
    if Nat.ltb 0 relatedAircraft || Nat.ltb 0 relatedFlights || Nat.ltb 0 relatedCrewMembers
    then (mkresp 400 "Cannot delete airline with related records"
            (Some (PCounts [("aircraft", relatedAircraft); ("flights", relatedFlights);
                            ("crewMembers", relatedCrewMembers)])), [])
    else (reply 200 "Airline deleted successfully", [Delete airline (by_col "id" (Some id))]).

(** *** routes/airports.js (src/unnamed/part_003) *)

Definition airports_post (new_id : string) (body : row) : handled :=
  let name := col body "name" in
  if negb (truthy name) then (reply 400 "Airport name is required", [])
  else
    let r := [("id", Some new_id); ("name", name); ("iata_code", col body "iata_code");
              ("city", col body "city"); ("country", col body "country");
              ("latitude", col body "latitude"); ("longitude", col body "longitude")] in
    (reply_row 201 "Airport created successfully" [r], [Insert airport r]).

Definition airports_put (d : db) (id : string) (body : row) : handled :=
  let name := col body "name" in
  if negb (truthy name) then (reply 400 "Airport name is required", [])
  else
    let s := [("name", name); ("iata_code", col body "iata_code");
              ("city", col body "city"); ("country", col body "country");
              ("latitude", col body "latitude"); ("longitude", col body "longitude")] in
    let w := by_col "id" (Some id) in
    let updatedAirport := update_returning d airport w s in
    if Nat.eqb (length updatedAirport) 0
    then (reply 404 "Airport not found", [Update airport w s])
    else (reply_row 200 "Airport updated successfully" updatedAirport, [Update airport w s]).

Definition airports_delete (d : db) (id : string) : handled :=
  let airport_rows := select_where d airport (by_col "id" (Some id)) in
  if Nat.eqb (length airport_rows) 0 then (reply 404 "Airport not found", [])
  else
    let departingFlights := count_where d flight (by_col "departure_airport_id" (Some id)) in
    let arrivingFlights := count_where d flight (by_col "arrival_airport_id" (Some id)) in
    if Nat.ltb 0 departingFlights || Nat.ltb 0 arrivingFlights
    then (mkresp 400 "Cannot delete airport with related flights"
            (Some (PCounts [("departing", departingFlights); ("arriving", arrivingFlights)])), [])
    else (reply 200 "Airport deleted successfully", [Delete airport (by_col "id" (Some id))]).

(** *** routes/aircraft.js (src/unnamed/part_002, second router) *)

Definition aircraft_post (d : db) (new_id : string) (body : row) : handled :=
  let registration_number := col body "registration_number" in
  let model := col body "model" in
  let airline_id := col body "airline_id" in
  if negb (truthy registration_number) || negb (truthy model)
  then (reply 400 "Registration number and model are required", [])
  else if truthy airline_id
          && Nat.eqb (length (select_where d airline (by_col "id" airline_id))) 0
  then (reply 400 "Specified airline does not exist", [])
  else
    let r := [("id", Some new_id); ("registration_number", registration_number);
              ("model", model); ("manufacturer", col body "manufacturer");
              ("capacity", col body "capacity");
              ("year_manufactured", col body "year_manufactured");
              ("airline_id", airline_id)] in
    (reply_row 201 "Aircraft created successfully" [r], [Insert aircraft r]).

Definition aircraft_put (d : db) (id : string) (body : row) : handled :=
  let registration_number := col body "registration_number" in
  let model := col body "model" in
  let airline_id := col body "airline_id" in
  if negb (truthy registration_number) || negb (truthy model)
  then (reply 400 "Registration number and model are required", [])
  else if truthy airline_id
          && Nat.eqb (length (select_where d airline (by_col "id" airline_id))) 0
  then (reply 400 "Specified airline does not exist", [])
  else
    let s := [("registration_number", registration_number); ("model", model);
              ("manufacturer", col body "manufacturer"); ("capacity", col body "capacity");
              ("year_manufactured", col body "year_manufactured");
              ("airline_id", airline_id)] in
    let w := by_col "id" (Some id) in
    let updatedAircraft := update_returning d aircraft w s in
    if Nat.eqb (length updatedAircraft) 0
    then (reply 404 "Aircraft not found", [Update aircraft w s])
    else (reply_row 200 "Aircraft updated successfully" updatedAircraft, [Update aircraft w s]).

Definition aircraft_delete (d : db) (id : string) : handled :=
  let aircraft_rows := select_where d aircraft (by_col "id" (Some id)) in
  if Nat.eqb (length aircraft_rows) 0 then (reply 404 "Aircraft not found", [])
  else
    let relatedFlights := count_where d flight (by_col "aircraft_id" (Some id)) in
    if Nat.ltb 0 relatedFlights
    then (mkresp 400 "Cannot delete aircraft with related flights"
            (Some (PCounts [("flights", relatedFlights)])), [])
    else (reply 200 "Aircraft deleted successfully", [Delete aircraft (by_col "id" (Some id))]).

(** *** routes/passengers.js (src/unnamed/part_002, first router) *)

Definition passengers_post (d : db) (new_id : string) (body : row) : handled :=
  let first_name := col body "first_name" in
  let last_name := col body "last_name" in
  let email := col body "email" in
  if negb (truthy first_name) || negb (truthy last_name) || negb (truthy email)
  then (reply 400 "First name, last name, and email are required", [])
  else
    let existingPassenger := select_where d passenger (by_col "email" email) in
    if Nat.ltb 0 (length existingPassenger)
    then (reply 400 "A passenger with this email already exists", [])
    else
      let r := [("id", Some new_id); ("first_name", first_name); ("last_name", last_name);
                ("email", email); ("phone", col body "phone");
                ("passport_number", col body "passport_number");
                ("nationality", col body "nationality");
                ("date_of_birth", col body "date_of_birth")] in
      (reply_row 201 "Passenger created successfully" [r], [Insert passenger r]).

(** [SELECT * FROM passenger WHERE email = $1 AND id != $2] *)
Definition other_with_email (email : value) (id : string) : row -> bool :=
  fun r => sql_eq (col r "email") email && sql_neq (col r "id") (Some id).

Definition passengers_put (d : db) (id : string) (body : row) : handled :=
  let first_name := col body "first_name" in
  let last_name := col body "last_name" in
  let email := col body "email" in
  if negb (truthy first_name) || negb (truthy last_name) || negb (truthy email)
  then (reply 400 "First name, last name, and email are required", [])
  else
    let passenger_rows := select_where d passenger (by_col "id" (Some id)) in
    if Nat.eqb (length passenger_rows) 0 then (reply 404 "Passenger not found", [])
    else
      let existingPassenger := select_where d passenger (other_with_email email id) in
      if Nat.ltb 0 (length existingPassenger)
      then (reply 400 "Another passenger with this email already exists", [])
      else
        let s := [("first_name", first_name); ("last_name", last_name); ("email", email);
                  ("phone", col body "phone"); ("passport_number", col body "passport_number");
                  ("nationality", col body "nationality");
                  ("date_of_birth", col body "date_of_birth")] in
        let w := by_col "id" (Some id) in
        (reply_row 200 "Passenger updated successfully" (update_returning d passenger w s),
         [Update passenger w s]).

Definition passengers_delete (d : db) (id : string) : handled :=
  let passenger_rows := select_where d passenger (by_col "id" (Some id)) in
  if Nat.eqb (length passenger_rows) 0 then (reply 404 "Passenger not found", [])
  else
    let relatedBookings := count_where d booking (by_col "passenger_id" (Some id)) in
    if Nat.ltb 0 relatedBookings
    then (mkresp 400 "Cannot delete passenger with related bookings"
            (Some (PCounts [("bookings", relatedBookings)])), [])
    else (reply 200 "Passenger deleted successfully", [Delete passenger (by_col "id" (Some id))]).

(** *** routes/bookings.js *)

(** [SELECT * FROM booking WHERE flight_id = $1 AND seat_number = $2] *)
Definition same_seat (flight_id seat_number : value) : row -> bool :=
  fun r => sql_eq (col r "flight_id") flight_id && sql_eq (col r "seat_number") seat_number.

(** [now] is the value of [new Date()] at the time of the request. *)
Definition bookings_post (d : db) (new_id : string) (now : value) (body : row) : handled :=
  let flight_id := col body "flight_id" in
  let passenger_id := col body "passenger_id" in
  let seat_number := col body "seat_number" in
  let booking_status := col body "booking_status" in
  if negb (truthy flight_id) || negb (truthy passenger_id)
  then (reply 400 "Flight ID and passenger ID are required", [])
  else if Nat.eqb (length (select_where d flight (by_col "id" flight_id))) 0
  then (reply 400 "Flight does not exist", [])
  else if Nat.eqb (length (select_where d passenger (by_col "id" passenger_id))) 0
  then (reply 400 "Passenger does not exist", [])
  else if truthy seat_number
          && Nat.ltb 0 (length (select_where d booking (same_seat flight_id seat_number)))
  then (reply 400 "This seat is already booked", [])
  else
    let r := [("id", Some new_id); ("flight_id", flight_id); ("passenger_id", passenger_id);
              ("booking_date", now); ("seat_number", seat_number);
              ("booking_status", if truthy booking_status then booking_status
                                 else Some "Confirmed");
              ("price", col body "price")] in
    (reply_row 201 "Booking created successfully" [r], [Insert booking r]).

Definition bookings_put (d : db) (id : string) (body : row) : handled :=
  let flight_id := col body "flight_id" in
  let passenger_id := col body "passenger_id" in
  let seat_number := col body "seat_number" in
  if Nat.eqb (length (select_where d booking (by_col "id" (Some id)))) 0
  then (reply 404 "Booking not found", [])
  else if negb (truthy flight_id) || negb (truthy passenger_id)
  then (reply 400 "Flight ID and passenger ID are required", [])
  else if Nat.eqb (length (select_where d flight (by_col "id" flight_id))) 0
  then (reply 400 "Flight does not exist", [])
  else if Nat.eqb (length (select_where d passenger (by_col "id" passenger_id))) 0
  then (reply 400 "Passenger does not exist", [])
  else if truthy seat_number
          && Nat.ltb 0 (length (select_where d booking
                (fun r => same_seat flight_id seat_number r && sql_neq (col r "id") (Some id))))
  then (reply 400 "This seat is already booked", [])
  else
    let s := [("flight_id", flight_id); ("passenger_id", passenger_id);
              ("seat_number", seat_number); ("booking_status", col body "booking_status");
              ("price", col body "price")] in
    let w := by_col "id" (Some id) in
    (reply_row 200 "Booking updated successfully" (update_returning d booking w s),
     [Update booking w s]).

Definition bookings_delete (d : db) (id : string) : handled :=
  if Nat.eqb (length (select_where d booking (by_col "id" (Some id)))) 0
  then (reply 404 "Booking not found", [])
  else (reply 200 "Booking deleted successfully", [Delete booking (by_col "id" (Some id))]).

(** *** routes/crew-members.js (src/unnamed/part_005) *)

Definition crew_post (d : db) (new_id : string) (body : row) : handled :=
  let first_name := col body "first_name" in
  let last_name := col body "last_name" in
  let position := col body "position" in
  let airline_id := col body "airline_id" in
  if negb (truthy first_name) || negb (truthy last_name) || negb (truthy position)
     || negb (truthy airline_id)
  then (reply 400 "First name, last name, position, and airline ID are required", [])
  else if Nat.eqb (length (select_where d airline (by_col "id" airline_id))) 0
  then (reply 400 "Airline does not exist", [])
  else
    let r := [("id", Some new_id); ("first_name", first_name); ("last_name", last_name);
              ("position", position); ("airline_id", airline_id);
              ("license_number", col body "license_number");
              ("experience_years", col body "experience_years")] in
    (reply_row 201 "Crew member created successfully" [r], [Insert crew_member r]).

Definition crew_put (d : db) (id : string) (body : row) : handled :=
  let first_name := col body "first_name" in
  let last_name := col body "last_name" in
  let position := col body "position" in
  let airline_id := col body "airline_id" in
  if Nat.eqb (length (select_where d crew_member (by_col "id" (Some id)))) 0
  then (reply 404 "Crew member not found", [])
  else if negb (truthy first_name) || negb (truthy last_name) || negb (truthy position)
     || negb (truthy airline_id)
  then (reply 400 "First name, last name, position, and airline ID are required", [])
  else if Nat.eqb (length (select_where d airline (by_col "id" airline_id))) 0
  then (reply 400 "Airline does not exist", [])
  else
    let s := [("first_name", first_name); ("last_name", last_name);
              ("position", position); ("airline_id", airline_id);
              ("license_number", col body "license_number");
              ("experience_years", col body "experience_years")] in
    let w := by_col "id" (Some id) in
    (reply_row 200 "Crew member updated successfully" (update_returning d crew_member w s),
     [Update crew_member w s]).

Definition crew_delete (d : db) (id : string) : handled :=
  if Nat.eqb (length (select_where d crew_member (by_col "id" (Some id)))) 0
  then (reply 404 "Crew member not found", [])
  else
    let flightAssignments := count_where d flight_crew (by_col "crew_member_id" (Some id)) in
    (reply 200 "Crew member deleted successfully",
     ((if Nat.ltb 0 flightAssignments
       then [Delete flight_crew (by_col "crew_member_id" (Some id))] else [])
      ++ [Delete crew_member (by_col "id" (Some id))])%list).

(** [SELECT * FROM flight_crew WHERE flight_id = $1 AND crew_member_id = $2] *)
Definition assignment_of (flight_id crew_member_id : value) : row -> bool :=
  fun r => sql_eq (col r "flight_id") flight_id && sql_eq (col r "crew_member_id") crew_member_id.

(** [router.post('/assign')] *)
Definition crew_assign (d : db) (body : row) : handled :=
  let flight_id := col body "flight_id" in
  let crew_member_id := col body "crew_member_id" in
  let role := col body "role" in
  if negb (truthy flight_id) || negb (truthy crew_member_id) || negb (truthy role)
  then (reply 400 "Flight ID, crew member ID, and role are required", [])
  else
    let flight_rows := select_where d flight (by_col "id" flight_id) in
    if Nat.eqb (length flight_rows) 0 then (reply 400 "Flight does not exist", [])
    else
      let crewMember := select_where d crew_member (by_col "id" crew_member_id) in
      if Nat.eqb (length crewMember) 0 then (reply 400 "Crew member does not exist", [])
      else if negb (js_strict_eq (col (hd [] crewMember) "airline_id")
                                 (col (hd [] flight_rows) "airline_id"))
      then (reply 400 "Crew member does not belong to the airline operating this flight", [])
      else if Nat.ltb 0 (length (select_where d flight_crew
                                   (assignment_of flight_id crew_member_id)))
      then (reply 400 "This crew member is already assigned to this flight", [])
      else
        let r := [("flight_id", flight_id); ("crew_member_id", crew_member_id);
                  ("role", role)] in
        (reply_row 201 "Crew member assigned to flight successfully" [r],
         [Insert flight_crew r]).

(** [router.delete('/assign')], lines 209-237.  Express tries the routes in
    the order they are registered, and [router.delete('/:id')] (line 130)
    comes first and matches the path [/assign]: this handler is never
    reached (see [handle]). *)
Definition crew_unassign (d : db) (body : row) : handled :=
  let flight_id := col body "flight_id" in
  let crew_member_id := col body "crew_member_id" in
  if negb (truthy flight_id) || negb (truthy crew_member_id)
  then (reply 400 "Flight ID and crew member ID are required", [])
  else if Nat.eqb (length (select_where d flight_crew (assignment_of flight_id crew_member_id))) 0
  then (reply 404 "Assignment not found", [])
  else (reply 200 "Crew member removed from flight successfully",
        [Delete flight_crew (assignment_of flight_id crew_member_id)]).

(** ** Dispatch of the mutating endpoints *)

Inductive request :=
| AirlinesPost (new_id : string) (body : row)
| AirlinesPut (id : string) (body : row)
| AirlinesDelete (id : string)
| AirportsPost (new_id : string) (body : row)
| AirportsPut (id : string) (body : row)
| AirportsDelete (id : string)
| AircraftPost (new_id : string) (body : row)
| AircraftPut (id : string) (body : row)
| AircraftDelete (id : string)
| FlightsPost (new_id : string) (body : row)
| FlightsPut (id : string) (body : row)
| FlightsDelete (id : string)
| PassengersPost (new_id : string) (body : row)
| PassengersPut (id : string) (body : row)
| PassengersDelete (id : string)
| BookingsPost (new_id : string) (now : value) (body : row)
| BookingsPut (id : string) (body : row)
| BookingsDelete (id : string)
| CrewPost (new_id : string) (body : row)
| CrewPut (id : string) (body : row)
| CrewDelete (id : string)
| CrewAssign (body : row)
(** [DELETE /crew-members/assign] with the pair to unassign in the body. *)
| CrewUnassign (body : row).

Definition handle (d : db) (req : request) : handled :=
  match req with
  | AirlinesPost i b => airlines_post i b
  | AirlinesPut i b => airlines_put d i b
  | AirlinesDelete i => airlines_delete d i
  | AirportsPost i b => airports_post i b
  | AirportsPut i b => airports_put d i b
  | AirportsDelete i => airports_delete d i
  | AircraftPost i b => aircraft_post d i b
  | AircraftPut i b => aircraft_put d i b
  | AircraftDelete i => aircraft_delete d i
  | FlightsPost i b => flights_post d i b
  | FlightsPut i b => flights_put d i b
  | FlightsDelete i => flights_delete d i
  | PassengersPost i b => passengers_post d i b
  | PassengersPut i b => passengers_put d i b
  | PassengersDelete i => passengers_delete d i
  | BookingsPost i n b => bookings_post d i n b
  | BookingsPut i b => bookings_put d i b
  | BookingsDelete i => bookings_delete d i
  | CrewPost i b => crew_post d i b
  | CrewPut i b => crew_put d i b
  | CrewDelete i => crew_delete d i
  | CrewAssign b => crew_assign d b
  (* Matched by [router.delete('/:id')] (line 130), registered before
     [router.delete('/assign')] (line 209): the crew member delete runs with
     [req.params.id = "assign"] and the body is ignored. *)
  | CrewUnassign _ => crew_delete d "assign"
  end.

(** The response and the database after the handler's writes. *)
Definition run (d : db) (req : request) : response * db :=
  let '(resp, ss) := handle d req in (resp, exec_all d ss).

End Handlers.

(** ** A concrete date parser for evaluation

    The subset of the ECMAScript Date Time String Format of the shape
    [YYYY-MM-DDTHH:mm:ssZ], which every engine accepts; any other string
    gives [None] here.  Examples below use only strings of this shape, or
    strings that engines reject as Invalid Date ("not a date", "epoch",
    "infinity"). *)

Definition digit (c : ascii) : option Z :=
  let n := nat_of_ascii c in
  if (48 <=? n)%nat && (n <=? 57)%nat then Some (Z.of_nat (n - 48)) else None.

(** Decimal number written with the digits [cs], most significant first. *)
Fixpoint digits_acc (acc : Z) (cs : list ascii) : option Z :=
  match cs with
  | [] => Some acc
  | c :: cs' =>
    match digit c with
    | Some k => digits_acc (10 * acc + k)%Z cs'
    | None => None
    end
  end.

Definition is_leap (y : Z) : bool :=
  (Z.eqb (y mod 4) 0 && negb (Z.eqb (y mod 100) 0)) || Z.eqb (y mod 400) 0.

Definition days_in_month (y m : Z) : Z :=
  if Z.eqb m 2 then (if is_leap y then 29 else 28)
  else if Z.eqb m 4 || Z.eqb m 6 || Z.eqb m 9 || Z.eqb m 11 then 30 else 31.

(** Days from 1970-01-01 to the proleptic Gregorian date [y-m-d]. *)
Definition days_from_civil (y m d : Z) : Z :=
  let y' := if (m <=? 2)%Z then (y - 1)%Z else y in
  let era := (y' / 400)%Z in
  let yoe := (y' - era * 400)%Z in
  let mp := ((m + 9) mod 12)%Z in
  let doy := ((153 * mp + 2) / 5 + d - 1)%Z in
  let doe := (yoe * 365 + yoe / 4 - yoe / 100 + doy)%Z in
  (era * 146097 + doe - 719468)%Z.

Definition iso_date_value (s : string) : option Z :=
  match list_ascii_of_string s with
  | [y1; y2; y3; y4; "-"; m1; m2; "-"; d1; d2; "T"; h1; h2; ":"; n1; n2; ":"; s1; s2; "Z"]%char =>
    match digits_acc 0 [y1; y2; y3; y4], digits_acc 0 [m1; m2], digits_acc 0 [d1; d2],
          digits_acc 0 [h1; h2], digits_acc 0 [n1; n2], digits_acc 0 [s1; s2] with
    | Some y, Some m, Some d, Some h, Some n, Some sec =>
      if (1 <=? m)%Z && (m <=? 12)%Z && (1 <=? d)%Z && (d <=? days_in_month y m)%Z
         && (h <=? 23)%Z && (n <=? 59)%Z && (sec <=? 59)%Z
      then Some ((days_from_civil y m d * 86400 + h * 3600 + n * 60 + sec) * 1000)%Z
      else None
    | _, _, _, _, _, _ => None
    end
  | _ => None
  end.

(** ** A sample database (shaped like the seed data of the README) *)

Definition airline_row (i n : string) : row :=
  [("id", Some i); ("name", Some n); ("iata_code", None); ("country", None);
   ("founded_year", None)].
Definition airport_row (i n : string) : row :=
  [("id", Some i); ("name", Some n); ("iata_code", None); ("city", None); ("country", None);
   ("latitude", None); ("longitude", None)].
Definition aircraft_row (i al : string) : row :=
  [("id", Some i); ("registration_number", Some "N1"); ("model", Some "A320");
   ("manufacturer", None); ("capacity", None); ("year_manufactured", None);
   ("airline_id", Some al)].
Definition flight_row (i dep arr ac al : string) : row :=
  [("id", Some i); ("flight_number", Some "AA101"); ("departure_airport_id", Some dep);
   ("arrival_airport_id", Some arr); ("departure_time", Some "2024-01-01T10:00:00Z");
   ("arrival_time", Some "2024-01-01T13:00:00Z"); ("aircraft_id", Some ac);
   ("airline_id", Some al); ("status", Some "Scheduled")].
Definition passenger_row (i e : string) : row :=
  [("id", Some i); ("first_name", Some "Ann"); ("last_name", Some "Lee"); ("email", Some e);
   ("phone", None); ("passport_number", None); ("nationality", None);
   ("date_of_birth", None)].
Definition booking_row (i f p seat : string) : row :=
  [("id", Some i); ("flight_id", Some f); ("passenger_id", Some p);
   ("booking_date", Some "2024-01-01T00:00:00Z"); ("seat_number", Some seat);
   ("booking_status", Some "Confirmed"); ("price", None)].
Definition crew_row (i al : string) : row :=
  [("id", Some i); ("first_name", Some "Sam"); ("last_name", Some "Roe");
   ("position", Some "Pilot"); ("airline_id", Some al); ("license_number", None);
   ("experience_years", None)].
Definition flight_crew_row (f c r : string) : row :=
  [("flight_id", Some f); ("crew_member_id", Some c); ("role", Some r)].

Definition d0 : db := {|
  t_airline := [airline_row "a1" "Test Air"; airline_row "a2" "Other Air"];
  t_airport := [airport_row "ap1" "P1"; airport_row "ap2" "P2"];
  t_aircraft := [aircraft_row "ac1" "a1"];
  t_flight := [flight_row "f1" "ap1" "ap2" "ac1" "a1"; flight_row "f2" "ap2" "ap1" "ac1" "a1"];
  t_passenger := [passenger_row "p1" "ann@example.com"; passenger_row "p2" "bob@example.com"];
  t_booking := [booking_row "b1" "f1" "p1" "12A"];
  t_crew_member := [crew_row "cm1" "a1"; crew_row "cm2" "a2"];
  t_flight_crew := [flight_crew_row "f2" "cm1" "Captain"]
|}.

(** A flight create/update body. *)
Definition flight_body (dep arr dep_t arr_t st : value) : row :=
  [("flight_number", Some "AA202"); ("departure_airport_id", dep);
   ("arrival_airport_id", arr); ("departure_time", dep_t); ("arrival_time", arr_t);
   ("aircraft_id", Some "ac1"); ("airline_id", Some "a1"); ("status", st)].

(** ** The flight validator as the spec describes it (§4.1)

    [validateFlightWrite]: seven checks in order, the first failure being the
    reason; used for the comparison with [flight_checks]. *)

Inductive flight_reason :=
| MissingField | SameAirport | InvalidTimeOrder
| UnknownDepartureAirport | UnknownArrivalAirport
| UnknownAircraft | UnknownAirline | AircraftAirlineMismatch.

(** The message with which the handlers report each reason. *)
Definition reason_message (r : flight_reason) : string :=
  match r with
  | MissingField => "All flight details are required"
  | SameAirport => "Departure and arrival airports must be different"
  | InvalidTimeOrder => "Departure time must be before arrival time"
  | UnknownDepartureAirport => "Departure airport does not exist"
  | UnknownArrivalAirport => "Arrival airport does not exist"
  | UnknownAircraft => "Aircraft does not exist"
  | UnknownAirline => "Airline does not exist"
  | AircraftAirlineMismatch => "Aircraft does not belong to the specified airline"
  end.

Section SpecValidator.
Variable date_value : string -> option Z.

(** "departure_time < arrival_time (parsed as instants)". *)
Definition strictly_before (dep_t arr_t : value) : bool :=
  match js_date date_value dep_t, js_date date_value arr_t with
  | Some x, Some y => (x <? y)%Z
  | _, _ => false
  end.

(** "resolves to an existing record". *)
Definition resolves (d : db) (t : table) (v : value) : bool :=
  existsb (by_col "id" v) (rows d t).

Definition validate_flight_write (d : db) (body : row) : option flight_reason :=
  let dep := col body "departure_airport_id" in
  let arr := col body "arrival_airport_id" in
  let ac := col body "aircraft_id" in
  let al := col body "airline_id" in
  if negb (forallb truthy [col body "flight_number"; dep; arr; col body "departure_time";
                           col body "arrival_time"; ac; al])
  then Some MissingField
  else if js_strict_eq dep arr then Some SameAirport
  else if negb (strictly_before (col body "departure_time") (col body "arrival_time"))
  then Some InvalidTimeOrder
  else if negb (resolves d airport dep) then Some UnknownDepartureAirport
  else if negb (resolves d airport arr) then Some UnknownArrivalAirport
  else if negb (resolves d aircraft ac) then Some UnknownAircraft
  else if negb (resolves d airline al) then Some UnknownAirline
  else match find (by_col "id" ac) (rows d aircraft) with
       | Some r => if js_strict_eq (col r "airline_id") al then None
                   else Some AircraftAirlineMismatch
       | None => None
       end.

End SpecValidator.

(** ** Further definitions used by the statements below *)

Definition good_flight_body : row :=
  flight_body (Some "ap1") (Some "ap2") (Some "2024-01-02T10:00:00Z")
              (Some "2024-01-02T11:00:00Z") None.

Definition unparsed_time_body : row :=
  flight_body (Some "ap1") (Some "ap2") (Some "not a date")
              (Some "2024-01-02T11:00:00Z") None.

(** Case analysis over the branches of a handler. *)
Ltac split_handler :=
  repeat match goal with
  | |- context [if ?c then _ else _] => destruct c
  | |- context [match flight_checks ?a ?b ?c with _ => _ end] =>
      destruct (flight_checks a b c)
  end.

(** The invariant of §3: no two passengers share an e-mail. *)
Definition emails_unique (d : db) : Prop :=
  forall r1 r2, In r1 (rows d passenger) -> In r2 (rows d passenger) ->
    sql_eq (col r1 "email") (col r2 "email") = true -> col r1 "id" = col r2 "id".

(** Reasons of [validateCrewAssignment] (§4.1). *)
Inductive assignment_reason :=
| MissingAssignmentField | UnknownFlight | UnknownCrewMember | AirlineMismatch
| DuplicateAssignment.

Definition assignment_message (r : assignment_reason) : string :=
  match r with
  | MissingAssignmentField => "Flight ID, crew member ID, and role are required"
  | UnknownFlight => "Flight does not exist"
  | UnknownCrewMember => "Crew member does not exist"
  | AirlineMismatch => "Crew member does not belong to the airline operating this flight"
  | DuplicateAssignment => "This crew member is already assigned to this flight"
  end.

(** [validateCrewAssignment] of §4.1, preceded by the presence check of the
    three request fields. *)
Definition validate_crew_assignment (d : db) (body : row) : option assignment_reason :=
  let fid := col body "flight_id" in
  let cid := col body "crew_member_id" in
  if negb (forallb truthy [fid; cid; col body "role"]) then Some MissingAssignmentField
  else match find (by_col "id" fid) (rows d flight) with
  | None => Some UnknownFlight
  | Some f =>
    match find (by_col "id" cid) (rows d crew_member) with
    | None => Some UnknownCrewMember
    | Some c =>
      if negb (js_strict_eq (col c "airline_id") (col f "airline_id")) then Some AirlineMismatch
      else if existsb (assignment_of fid cid) (rows d flight_crew) then Some DuplicateAssignment
      else None
    end
  end.

Definition assign_body (f c : string) (role : value) : row :=
  [("flight_id", Some f); ("crew_member_id", Some c); ("role", role)].

Definition unknown_flight_booking : row :=
  [("flight_id", Some "f404"); ("passenger_id", Some "p1"); ("seat_number", Some "1A")].

Ltac case_handler :=
  cbv zeta; split_handler;
  repeat match goal with |- context [match ?l with [] => _ | _ :: _ => _ end] =>
    destruct l end;
  cbn.

(** The table a non-cascading delete endpoint removes its row from. *)
Definition plain_delete_table (req : request) : option table :=
  match req with
  | AirlinesDelete _ => Some airline
  | AirportsDelete _ => Some airport
  | AircraftDelete _ => Some aircraft
  | PassengersDelete _ => Some passenger
  | BookingsDelete _ => Some booking
  | _ => None
  end.

(** A 400 answer with message [m] and the dependent counts [cs] as its data,
    and no write. *)
Definition counts_rejection (h : handled) (m : string) (cs : list (string * nat)) : Prop :=
  fst h = mkresp 400 m (Some (PCounts cs)) /\ snd h = [].

(** Every stored flight row carries a [status] column (the table's schema). *)
Definition flight_rows_have_status (d : db) : Prop :=
  forall r, In r (rows d flight) -> has_col r "status" = true.

Definition unparsed_times_body : row :=
  flight_body (Some "ap1") (Some "ap2") (Some "epoch") (Some "infinity") None.

(** ** Definitions for the further properties of the handlers *)

Definition table_eqb (a b : table) : bool :=
  match a, b with
  | airline, airline | airport, airport | aircraft, aircraft | flight, flight
  | passenger, passenger | booking, booking | crew_member, crew_member
  | flight_crew, flight_crew => true
  | _, _ => false
  end.

(** The table a statement writes to. *)
Definition stmt_table (s : stmt) : table :=
  match s with
  | Insert t _ | Update t _ _ | Delete t _ => t
  end.

(** The table whose rows a statement adds or rewrites; [None] for a DELETE,
    which only removes rows. *)
Definition filled_table (s : stmt) : option table :=
  match s with
  | Insert t _ | Update t _ _ => Some t
  | Delete _ _ => None
  end.

(** The tables an endpoint may write to. *)
Definition footprint (req : request) : list table :=
  match req with
  | AirlinesPost _ _ | AirlinesPut _ _ | AirlinesDelete _ => [airline]
  | AirportsPost _ _ | AirportsPut _ _ | AirportsDelete _ => [airport]
  | AircraftPost _ _ | AircraftPut _ _ | AircraftDelete _ => [aircraft]
  | FlightsPost _ _ | FlightsPut _ _ => [flight]
  | FlightsDelete _ => [flight; flight_crew]
  | PassengersPost _ _ | PassengersPut _ _ | PassengersDelete _ => [passenger]
  | BookingsPost _ _ _ | BookingsPut _ _ | BookingsDelete _ => [booking]
  | CrewPost _ _ | CrewPut _ _ => [crew_member]
  | CrewDelete _ | CrewUnassign _ => [crew_member; flight_crew]
  | CrewAssign _ => [flight_crew]
  end.

(** The tables into which an endpoint may insert rows or whose rows it may
    rewrite (the deletes only remove rows). *)
Definition filled_tables (req : request) : list table :=
  match req with
  | AirlinesPost _ _ | AirlinesPut _ _ => [airline]
  | AirportsPost _ _ | AirportsPut _ _ => [airport]
  | AircraftPost _ _ | AircraftPut _ _ => [aircraft]
  | FlightsPost _ _ | FlightsPut _ _ => [flight]
  | PassengersPost _ _ | PassengersPut _ _ => [passenger]
  | BookingsPost _ _ _ | BookingsPut _ _ => [booking]
  | CrewPost _ _ | CrewPut _ _ => [crew_member]
  | CrewAssign _ => [flight_crew]
  | _ => []
  end.

(** The [uuidv4()] value a create endpoint stores as the new row's id. *)
Definition created_id (req : request) : option string :=
  match req with
  | AirlinesPost i _ | AirportsPost i _ | AircraftPost i _ | FlightsPost i _
  | PassengersPost i _ | BookingsPost i _ _ | CrewPost i _ => Some i
  | _ => None
  end.

(** The rows of [t] have a non-NULL [id] (the primary key) and carry each
    column of [cs] (the table's schema). *)
Definition keyed_rows (d : db) (t : table) (cs : list string) : Prop :=
  forall r, In r (rows d t) -> (exists i, col r "id" = Some i) /\ forallb (has_col r) cs = true.

(** No two rows of the list record the same (flight, crew member) pair. *)
Fixpoint pairs_distinct (rs : list row) : Prop :=
  match rs with
  | [] => True
  | r :: rs' =>
    existsb (assignment_of (col r "flight_id") (col r "crew_member_id")) rs' = false /\
    pairs_distinct rs'
  end.

Definition assignments_unique (d : db) : Prop := pairs_distinct (rows d flight_crew).

(** Every flight's aircraft belongs to the flight's airline, the relation
    that the flight create and update handlers check. *)
Definition flights_match_aircraft (d : db) : Prop :=
  forall f a, In f (rows d flight) -> In a (rows d aircraft) ->
    by_col "id" (col f "aircraft_id") a = true ->
    js_strict_eq (col a "airline_id") (col f "airline_id") = true.

(** A booking create on the sample database: passenger [p2] books seat
    14C of flight [f1]. *)
Definition booking_request_b9 : request :=
  BookingsPost "b9" (Some "2024-03-01T00:00:00Z")
    [("flight_id", Some "f1"); ("passenger_id", Some "p2"); ("seat_number", Some "14C")].

(** Aircraft ids are unique: the rows with the id of an aircraft are that
    aircraft. *)
Definition aircraft_ids_unique (d : db) : Prop :=
  forall a1 a2, In a1 (rows d aircraft) -> In a2 (rows d aircraft) ->
    by_col "id" (col a1 "id") a2 = true -> a1 = a2.

(** Every crew member assigned to a flight belongs to the flight's airline,
    the relation that the crew assignment handler checks. *)
Definition crew_match_flights (d : db) : Prop :=
  forall fc f c, In fc (rows d flight_crew) -> In f (rows d flight) ->
    In c (rows d crew_member) ->
    by_col "id" (col fc "flight_id") f = true ->
    by_col "id" (col fc "crew_member_id") c = true ->
    js_strict_eq (col c "airline_id") (col f "airline_id") = true.

(** An aircraft update body moving aircraft [ac1] to airline [a2]. *)
Definition aircraft_body_a2 : row :=
  [("registration_number", Some "N1"); ("model", Some "A320"); ("airline_id", Some "a2")].

(** The sample database with a second aircraft, of airline [a2]. *)
Definition d0_with_ac2 : db :=
  set_rows d0 aircraft (rows d0 aircraft ++ [aircraft_row "ac2" "a2"])%list.

(** An update of flight [f2] moving it to airline [a2] and its aircraft [ac2]. *)
Definition flight_f2_to_a2 : row :=
  [("flight_number", Some "AA101"); ("departure_airport_id", Some "ap2");
   ("arrival_airport_id", Some "ap1"); ("departure_time", Some "2024-01-01T10:00:00Z");
   ("arrival_time", Some "2024-01-01T13:00:00Z"); ("aircraft_id", Some "ac2");
   ("airline_id", Some "a2"); ("status", Some "Scheduled")].

(** A crew member update body moving a crew member to airline [a2]. *)
Definition crew_body_a2 : row :=
  [("first_name", Some "Sam"); ("last_name", Some "Roe"); ("position", Some "Pilot");
   ("airline_id", Some "a2")].

(** Case analysis over the branches of a handler, remembering each test. *)
Ltac split_handler_eqn :=
  repeat match goal with
  | |- context [if ?c then _ else _] => let E := fresh "E" in destruct c eqn:E
  | |- context [match flight_checks ?a ?b ?c with _ => _ end] =>
      destruct (flight_checks a b c)
  end.

Example iso_date_value_epoch : iso_date_value "1970-01-01T00:00:00Z" = Some 0%Z.
Proof. reflexivity. Qed.

Example iso_date_value_2024 : iso_date_value "2024-01-01T10:00:00Z" = Some 1704103200000%Z.
Proof. reflexivity. Qed.

Example iso_date_value_invalid : iso_date_value "not a date" = None.
Proof. reflexivity. Qed.

Example flights_post_ok :
  code (fst (flights_post iso_date_value d0 "f9"
    (flight_body (Some "ap1") (Some "ap2") (Some "2024-01-02T10:00:00Z")
                 (Some "2024-01-02T11:00:00Z") None))) = 201%Z.
Proof. reflexivity. Qed.

Example flights_post_same_airport :
  fst (flights_post iso_date_value d0 "f9"
    (flight_body (Some "ap1") (Some "ap1") (Some "2024-01-02T10:00:00Z")
                 (Some "2024-01-02T11:00:00Z") None))
  = reply 400 "Departure and arrival airports must be different".
Proof. reflexivity. Qed.

Example bookings_post_seat_taken :
  fst (bookings_post d0 "b9" None
        [("flight_id", Some "f1"); ("passenger_id", Some "p2"); ("seat_number", Some "12A")])
  = reply 400 "This seat is already booked".
Proof. reflexivity. Qed.

Example crew_assign_mismatch :
  fst (crew_assign d0 [("flight_id", Some "f1"); ("crew_member_id", Some "cm2");
                       ("role", Some "Purser")])
  = reply 400 "Crew member does not belong to the airline operating this flight".
Proof. reflexivity. Qed.

(** ** Lemmas on the SQL embedding *)

Lemma length_filter_eqb_0 {A} (w : A -> bool) (l : list A) :
  Nat.eqb (length (filter w l)) 0 = negb (existsb w l).
Proof.
  induction l as [|x l IH]; simpl; [reflexivity|].
  destruct (w x); simpl; [reflexivity | exact IH].
Qed.

Lemma length_filter_ltb_0 {A} (w : A -> bool) (l : list A) :
  Nat.ltb 0 (length (filter w l)) = existsb w l.
Proof.
  induction l as [|x l IH]; simpl; [reflexivity|].
  destruct (w x); simpl; [reflexivity | exact IH].
Qed.

Lemma hd_filter_find {A} (w : A -> bool) (l : list A) (x : A) :
  hd x (filter w l) = match find w l with Some r => r | None => x end.
Proof.
  induction l as [|y l IH]; simpl; [reflexivity|].
  destruct (w y); simpl; [reflexivity | exact IH].
Qed.

Lemma find_none_existsb {A} (w : A -> bool) (l : list A) :
  find w l = None -> existsb w l = false.
Proof.
  induction l as [|y l IH]; simpl; [reflexivity|].
  destruct (w y); [discriminate | exact IH].
Qed.

Lemma exec_all_nil d : exec_all d [] = d.
Proof. reflexivity. Qed.

Lemma truthy_some v : truthy v = true -> exists s, v = Some s.
Proof. destruct v as [s|]; simpl; [eauto | discriminate]. Qed.

(** ** C1: the order of the flight checks *)

(** When the submitted times parse (whenever they are present), the code's
    check sequence reports exactly the reason of the spec's validator. *)
Lemma flight_checks_validate date_value d body :
  (forall s, col body "departure_time" = Some s -> date_value s <> None) ->
  (forall s, col body "arrival_time" = Some s -> date_value s <> None) ->
  flight_checks date_value d body
  = option_map reason_message (validate_flight_write date_value d body).
Proof.
  intros Hdep Harr.
  unfold flight_checks, validate_flight_write, strictly_before, resolves, select_where.
  rewrite !length_filter_eqb_0, hd_filter_find.
  cbn [forallb].
  destruct (truthy (col body "flight_number")); [|reflexivity].
  destruct (truthy (col body "departure_airport_id")); [|reflexivity].
  destruct (truthy (col body "arrival_airport_id")); [|reflexivity].
  destruct (truthy (col body "departure_time")) eqn:Td; [|reflexivity].
  destruct (truthy (col body "arrival_time")) eqn:Ta; [|reflexivity].
  destruct (truthy (col body "aircraft_id")); [|reflexivity].
  destruct (truthy (col body "airline_id")); [|reflexivity].
  cbn [negb orb andb].
  destruct (js_strict_eq _ _); [reflexivity|].
  destruct (truthy_some _ Td) as [sd Ed]. destruct (truthy_some _ Ta) as [sa Ea].
  rewrite Ed, Ea. cbn [js_date].
  destruct (date_value sd) as [x|] eqn:Ex; [|exfalso; exact (Hdep sd Ed Ex)].
  destruct (date_value sa) as [y|] eqn:Ey; [|exfalso; exact (Harr sa Ea Ey)].
  cbn [js_date_ge]. rewrite Z.ltb_antisym.
  destruct (y <=? x)%Z; [reflexivity|]. cbn [negb].
  destruct (existsb _ (rows d airport)); [|reflexivity].
  destruct (existsb _ (rows d airport)); [|reflexivity].
  destruct (existsb _ (rows d aircraft)) eqn:Eac; [|reflexivity].
  destruct (existsb _ (rows d airline)); [|reflexivity].
  cbn [negb].
  destruct (find _ (rows d aircraft)) as [r|] eqn:Ef.
  - unfold row in *; rewrite Ef; destruct (js_strict_eq (col r "airline_id") (col body "airline_id")); reflexivity.
  - rewrite (find_none_existsb _ _ Ef) in Eac. discriminate.
Qed.

(** C1, as the spec states it, fails twice: a departure time that does not
    parse is not "strictly before" the arrival, yet the create handler accepts
    it; and a candidate passing all seven checks is refused by the update
    handler when the flight addressed by the URL does not exist. *)
Lemma flight_check_order_counterexample :
  validate_flight_write iso_date_value d0 unparsed_time_body = Some InvalidTimeOrder /\
  code (fst (flights_post iso_date_value d0 "f9" unparsed_time_body)) = 201%Z /\
  validate_flight_write iso_date_value d0 good_flight_body = None /\
  fst (flights_put iso_date_value d0 "f404" good_flight_body) = reply 404 "Flight not found".
Proof. repeat split; reflexivity. Qed.

(** C1 (amended).  For a flight create, and for an update of a flight that
    exists, whose departure and arrival times parse to instants whenever they
    are present, the checks run in the order of the spec and the first
    failing one is the single reason reported (400, no write); a candidate
    passing all seven is written (201 with one INSERT, or 200 with one
    UPDATE).  An update whose URL id names no flight is answered 404 before
    any check. *)
Theorem flight_write_checks_in_order date_value d new_id id body :
  (forall s, col body "departure_time" = Some s -> date_value s <> None) ->
  (forall s, col body "arrival_time" = Some s -> date_value s <> None) ->
  ((forall r, validate_flight_write date_value d body = Some r ->
      flights_post date_value d new_id body = (reply 400 (reason_message r), [])) /\
   (validate_flight_write date_value d body = None ->
      code (fst (flights_post date_value d new_id body)) = 201%Z /\
      exists fr, snd (flights_post date_value d new_id body) = [Insert flight fr])) /\
  (existsb (by_col "id" (Some id)) (rows d flight) = false ->
     flights_put date_value d id body = (reply 404 "Flight not found", [])) /\
  (existsb (by_col "id" (Some id)) (rows d flight) = true ->
     (forall r, validate_flight_write date_value d body = Some r ->
        flights_put date_value d id body = (reply 400 (reason_message r), [])) /\
     (validate_flight_write date_value d body = None ->
        code (fst (flights_put date_value d id body)) = 200%Z /\
        exists w s, snd (flights_put date_value d id body) = [Update flight w s])).
Proof.
  intros Hdep Harr.
  pose proof (flight_checks_validate date_value d body Hdep Harr) as Hc.
  unfold flights_post, flights_put, select_where.
  rewrite length_filter_eqb_0, Hc.
  split; [|split].
  - split.
    + intros r Hr. rewrite Hr. reflexivity.
    + intros Hn. rewrite Hn. split; [reflexivity | eexists; reflexivity].
  - intros Hf. rewrite Hf. reflexivity.
  - intros Hf. rewrite Hf. cbn [negb]. split.
    + intros r Hr. rewrite Hr. reflexivity.
    + intros Hn. rewrite Hn. split.
      * unfold reply_row. destruct (update_returning _ _ _ _); reflexivity.
      * do 2 eexists; reflexivity.
Qed.

Lemma flight_write_checks_in_order_witness :
  (forall s, col good_flight_body "departure_time" = Some s -> iso_date_value s <> None) /\
  (forall s, col good_flight_body "arrival_time" = Some s -> iso_date_value s <> None) /\
  code (fst (flights_post iso_date_value d0 "f9" good_flight_body)) = 201%Z.
Proof.
  assert (H1 : forall s, col good_flight_body "departure_time" = Some s ->
                         iso_date_value s <> None)
    by (simpl; intros s Hs; injection Hs as <-; vm_compute; discriminate).
  assert (H2 : forall s, col good_flight_body "arrival_time" = Some s ->
                         iso_date_value s <> None)
    by (simpl; intros s Hs; injection Hs as <-; vm_compute; discriminate).
  split; [exact H1 | split; [exact H2 |]].
  apply (flight_write_checks_in_order iso_date_value d0 "f9" "f1" good_flight_body H1 H2).
  reflexivity.
Defined.

(** ** C2: rejected requests write nothing *)

(** Every 400 answer (a validation or business-rule rejection) comes with an
    empty list of write statements. *)
Lemma rejection_has_no_writes date_value d req :
  code (fst (handle date_value d req)) = 400%Z -> snd (handle date_value d req) = [].
Proof.
  destruct req; cbn [handle];
  unfold airlines_post, airlines_put, airlines_delete, airports_post, airports_put,
    airports_delete, aircraft_post, aircraft_put, aircraft_delete, flights_post,
    flights_put, flights_delete, passengers_post, passengers_put, passengers_delete,
    bookings_post, bookings_put, bookings_delete, crew_post, crew_put, crew_delete,
    crew_assign, crew_unassign, reply_row;
  cbv zeta; split_handler;
  repeat match goal with |- context [match ?l with [] => _ | _ :: _ => _ end] =>
    destruct l end;
  cbn; intros H; first [reflexivity | discriminate H].
Qed.

(** C2.  Whenever a mutating request (create, update, delete, crew
    assignment or removal) is rejected by a validation or business-rule check
    (HTTP 400), the handler issues no INSERT, UPDATE or DELETE, and the state
    after the request equals the state before it. *)
Theorem rejected_request_leaves_state date_value d req :
  code (fst (run date_value d req)) = 400%Z ->
  snd (handle date_value d req) = [] /\ snd (run date_value d req) = d.
Proof.
  unfold run. destruct (handle date_value d req) as [resp ss] eqn:Eh. cbn [fst snd].
  intros H.
  assert (Hs : ss = []).
  { change ss with (snd (resp, ss)). rewrite <- Eh.
    apply rejection_has_no_writes. rewrite Eh. exact H. }
  subst ss. split; reflexivity.
Qed.

Lemma rejected_request_leaves_state_witness :
  code (fst (run iso_date_value d0 (FlightsDelete "f1"))) = 400%Z /\
  snd (run iso_date_value d0 (FlightsDelete "f1")) = d0.
Proof.
  assert (H : code (fst (run iso_date_value d0 (FlightsDelete "f1"))) = 400%Z)
    by reflexivity.
  split; [exact H | apply (rejected_request_leaves_state iso_date_value d0 _ H)].
Defined.

(** ** C3: deleting a flight *)

Lemma filter_negb_none {A} (w : A -> bool) (l : list A) :
  length (filter w l) = 0 -> filter (fun r => negb (w r)) l = l.
Proof.
  induction l as [|x l IH]; simpl; [reflexivity|].
  destruct (w x); simpl; [discriminate | intros H; f_equal; exact (IH H)].
Qed.

Lemma rows_set_rows_same d t rs : rows (set_rows d t rs) t = rs.
Proof. destruct d, t; reflexivity. Qed.

Lemma rows_set_rows_other d t t' rs : t <> t' -> rows (set_rows d t rs) t' = rows d t'.
Proof. destruct d, t, t'; simpl; congruence. Qed.

(** C3.  Deleting an existing flight: with [n > 0] bookings referencing it
    the request is rejected with [{bookings: n}] and nothing is removed; with
    none, the request succeeds and executes, in this order, the DELETE of its
    FlightCrew rows (when there are any) and the DELETE of the flight, so
    that afterwards exactly the flight and its FlightCrew rows are gone. *)
Theorem flight_delete_guard date_value d id :
  existsb (by_col "id" (Some id)) (rows d flight) = true ->
  (0 < count_where d booking (by_col "flight_id" (Some id)) ->
     handle date_value d (FlightsDelete id)
     = (mkresp 400 "Cannot delete flight with related bookings"
          (Some (PCounts [("bookings", count_where d booking (by_col "flight_id" (Some id)))])),
        []) /\
     snd (run date_value d (FlightsDelete id)) = d) /\
  (count_where d booking (by_col "flight_id" (Some id)) = 0 ->
     code (fst (run date_value d (FlightsDelete id))) = 200%Z /\
     snd (handle date_value d (FlightsDelete id))
     = ((if Nat.ltb 0 (count_where d flight_crew (by_col "flight_id" (Some id)))
         then [Delete flight_crew (by_col "flight_id" (Some id))] else [])
        ++ [Delete flight (by_col "id" (Some id))])%list /\
     let d' := snd (run date_value d (FlightsDelete id)) in
     rows d' flight = filter (fun r => negb (by_col "id" (Some id) r)) (rows d flight) /\
     rows d' flight_crew
       = filter (fun r => negb (by_col "flight_id" (Some id) r)) (rows d flight_crew) /\
     (forall t, t <> flight -> t <> flight_crew -> rows d' t = rows d t)).
Proof.
  intros Hex.
  unfold run; cbn [handle]; unfold flights_delete.
  unfold select_where. rewrite !length_filter_eqb_0, Hex. cbn [negb].
  split.
  - intros Hn. apply Nat.ltb_lt in Hn. rewrite Hn. split; reflexivity.
  - intros Hn. rewrite Hn. replace (Nat.ltb 0 0) with false by reflexivity.
    split; [reflexivity|]. split; [reflexivity|].
    cbn [fst snd].
    destruct (Nat.ltb 0 (count_where d flight_crew (by_col "flight_id" (Some id)))) eqn:Ec.
    + cbn [app exec_all fold_left exec].
      repeat split.
      * rewrite rows_set_rows_same, rows_set_rows_other by discriminate. reflexivity.
      * rewrite rows_set_rows_other, rows_set_rows_same by discriminate. reflexivity.
      * intros t H1 H2. rewrite !rows_set_rows_other by congruence. reflexivity.
    + cbn [app exec_all fold_left exec].
      assert (Hz : count_where d flight_crew (by_col "flight_id" (Some id)) = 0).
      { apply Nat.ltb_ge in Ec. lia. }
      unfold count_where, select_where in Hz.
      repeat split.
      * rewrite rows_set_rows_same. reflexivity.
      * rewrite rows_set_rows_other by discriminate. symmetry. apply filter_negb_none, Hz.
      * intros t H1 H2. rewrite rows_set_rows_other by congruence. reflexivity.
Qed.

Lemma flight_delete_guard_witness :
  existsb (by_col "id" (Some "f2")) (rows d0 flight) = true /\
  count_where d0 booking (by_col "flight_id" (Some "f2")) = 0 /\
  code (fst (run iso_date_value d0 (FlightsDelete "f2"))) = 200%Z.
Proof.
  assert (H1 : existsb (by_col "id" (Some "f2")) (rows d0 flight) = true) by reflexivity.
  assert (H2 : count_where d0 booking (by_col "flight_id" (Some "f2")) = 0) by reflexivity.
  split; [exact H1 | split; [exact H2 |]].
  exact (proj1 (proj2 (flight_delete_guard iso_date_value d0 "f2" H1) H2)).
Defined.

(** ** C4: deleting an airline *)

(** C4.  Deleting an existing airline: when any aircraft, flight or crew
    member references it, the request is rejected (400, no write) and
    reports the exact number of each; when none does, the request succeeds
    and removes exactly the airline's row. *)
Theorem airline_delete_guard date_value d id :
  existsb (by_col "id" (Some id)) (rows d airline) = true ->
  (0 < count_where d aircraft (by_col "airline_id" (Some id)) \/
   0 < count_where d flight (by_col "airline_id" (Some id)) \/
   0 < count_where d crew_member (by_col "airline_id" (Some id)) ->
     handle date_value d (AirlinesDelete id)
     = (mkresp 400 "Cannot delete airline with related records"
          (Some (PCounts
             [("aircraft", count_where d aircraft (by_col "airline_id" (Some id)));
              ("flights", count_where d flight (by_col "airline_id" (Some id)));
              ("crewMembers", count_where d crew_member (by_col "airline_id" (Some id)))])),
        []) /\
     snd (run date_value d (AirlinesDelete id)) = d) /\
  (count_where d aircraft (by_col "airline_id" (Some id)) = 0 ->
   count_where d flight (by_col "airline_id" (Some id)) = 0 ->
   count_where d crew_member (by_col "airline_id" (Some id)) = 0 ->
     code (fst (run date_value d (AirlinesDelete id))) = 200%Z /\
     snd (run date_value d (AirlinesDelete id))
     = set_rows d airline (filter (fun r => negb (by_col "id" (Some id) r)) (rows d airline))).
Proof.
  intros Hex.
  unfold run; cbn [handle]; unfold airlines_delete.
  unfold select_where. rewrite !length_filter_eqb_0, Hex. cbn [negb].
  split.
  - intros H.
    replace (Nat.ltb 0 (count_where d aircraft (by_col "airline_id" (Some id)))
             || Nat.ltb 0 (count_where d flight (by_col "airline_id" (Some id)))
             || Nat.ltb 0 (count_where d crew_member (by_col "airline_id" (Some id))))
      with true.
    + split; reflexivity.
    + destruct H as [H|[H|H]]; apply Nat.ltb_lt in H; rewrite H;
        [reflexivity | rewrite orb_true_r; reflexivity | rewrite orb_true_r; reflexivity].
  - intros H1 H2 H3. rewrite H1, H2, H3. split; reflexivity.
Qed.

Lemma airline_delete_guard_witness :
  existsb (by_col "id" (Some "a2")) (rows d0 airline) = true /\
  snd (run iso_date_value d0 (AirlinesDelete "a2")) = d0.
Proof.
  assert (H : existsb (by_col "id" (Some "a2")) (rows d0 airline) = true) by reflexivity.
  split; [exact H|].
  refine (proj2 (proj1 (airline_delete_guard iso_date_value d0 "a2" H) _)).
  right; right. vm_compute. lia.
Defined.

(** ** C5: passenger e-mail uniqueness *)

Lemma existsb_In_true {A} (w : A -> bool) (l : list A) (x : A) :
  In x l -> w x = true -> existsb w l = true.
Proof. intros Hin Hw. apply existsb_exists. eauto. Qed.

Lemma sql_eq_refl_truthy v : truthy v = true -> sql_eq v v = true.
Proof. destruct v as [s|]; simpl; [intros _; apply String.eqb_refl | discriminate]. Qed.

(** C5.  (a) Creating a passenger with the e-mail of an existing passenger is
    rejected (400, no write).  (b) Updating a passenger to the e-mail of a
    different passenger is rejected (400, or 404 when the addressed passenger
    does not exist; no write).  (c) In a database where e-mails are unique,
    updating an existing passenger with its own current e-mail (and the
    required names) succeeds: the check excludes the passenger's own id. *)
Theorem passenger_email_uniqueness :
  (forall d new_id body p,
     In p (rows d passenger) -> col p "email" = col body "email" ->
     code (fst (passengers_post d new_id body)) = 400%Z /\
     snd (passengers_post d new_id body) = []) /\
  (forall d id body p pid,
     In p (rows d passenger) -> col p "email" = col body "email" ->
     col p "id" = Some pid -> pid <> id ->
     (code (fst (passengers_put d id body)) = 400%Z \/
      code (fst (passengers_put d id body)) = 404%Z) /\
     snd (passengers_put d id body) = []) /\
  (forall d id body p,
     emails_unique d -> In p (rows d passenger) -> col p "id" = Some id ->
     col body "email" = col p "email" ->
     truthy (col body "first_name") = true -> truthy (col body "last_name") = true ->
     truthy (col body "email") = true ->
     code (fst (passengers_put d id body)) = 200%Z /\
     exists w s, snd (passengers_put d id body) = [Update passenger w s]).
Proof.
  split; [|split].
  - intros d new_id body p Hin He. unfold passengers_post, select_where.
    rewrite length_filter_ltb_0.
    destruct (truthy (col body "first_name")); [|split; reflexivity].
    destruct (truthy (col body "last_name")); [|split; reflexivity].
    destruct (truthy (col body "email")) eqn:Te; [|split; reflexivity].
    cbn [negb orb].
    rewrite (existsb_In_true _ _ p Hin); [split; reflexivity|].
    unfold by_col. rewrite He. apply sql_eq_refl_truthy, Te.
  - intros d id body p pid Hin He Hp Hne. unfold passengers_put, select_where.
    rewrite length_filter_eqb_0, length_filter_ltb_0.
    destruct (truthy (col body "first_name")); [|split; [left|]; reflexivity].
    destruct (truthy (col body "last_name")); [|split; [left|]; reflexivity].
    destruct (truthy (col body "email")) eqn:Te; [|split; [left|]; reflexivity].
    cbn [negb orb].
    destruct (existsb (by_col "id" (Some id)) (rows d passenger));
      [cbn [negb] | split; [right|]; reflexivity].
    rewrite (existsb_In_true _ _ p Hin); [split; [left|]; reflexivity|].
    unfold other_with_email. rewrite He, Hp. rewrite sql_eq_refl_truthy by exact Te.
    simpl. apply String.eqb_neq in Hne. rewrite Hne. reflexivity.
  - intros d id body p Hu Hin Hp He T1 T2 T3. unfold passengers_put, select_where.
    rewrite length_filter_eqb_0, length_filter_ltb_0, T1, T2, T3. cbn [negb orb].
    rewrite (existsb_In_true _ _ p Hin);
      [|unfold by_col; rewrite Hp; simpl; apply String.eqb_refl].
    cbn [negb].
    replace (existsb (other_with_email (col body "email") id) (rows d passenger)) with false.
    + split; [unfold reply_row; destruct (update_returning _ _ _ _); reflexivity|].
      do 2 eexists; reflexivity.
    + symmetry. apply Bool.not_true_iff_false. intros Hx.
      apply existsb_exists in Hx as [r [Hr Hw]].
      unfold other_with_email in Hw. apply andb_prop in Hw as [Hm Hn].
      rewrite He in Hm.
      rewrite (Hu r p Hr Hin Hm), Hp in Hn. simpl in Hn.
      rewrite String.eqb_refl in Hn. discriminate.
Qed.

Lemma emails_unique_d0 : emails_unique d0.
Proof.
  intros r1 r2 H1 H2. simpl in H1, H2.
  destruct H1 as [<-|[<-|[]]]; destruct H2 as [<-|[<-|[]]]; vm_compute;
    first [reflexivity | discriminate].
Qed.

Lemma passenger_email_uniqueness_witness :
  code (fst (passengers_put d0 "p1"
    [("first_name", Some "Ann"); ("last_name", Some "Lee");
     ("email", Some "ann@example.com")])) = 200%Z.
Proof.
  refine (proj1 (proj2 (proj2 passenger_email_uniqueness) d0 "p1" _
                   (passenger_row "p1" "ann@example.com")
                   emails_unique_d0 _ _ _ _ _ _));
    first [reflexivity | simpl; tauto].
Defined.

(** ** C6: crew assignment *)

(** C6 as stated fails: flight [f1] and crew member [cm1] exist, belong to
    the same airline and are not yet paired, but without a role the request
    is rejected and nothing is inserted. *)
Lemma crew_assignment_counterexample :
  resolves d0 flight (Some "f1") = true /\
  resolves d0 crew_member (Some "cm1") = true /\
  js_strict_eq (col (crew_row "cm1" "a1") "airline_id")
               (col (flight_row "f1" "ap1" "ap2" "ac1" "a1") "airline_id") = true /\
  existsb (assignment_of (Some "f1") (Some "cm1")) (rows d0 flight_crew) = false /\
  crew_assign d0 (assign_body "f1" "cm1" None)
  = (reply 400 "Flight ID, crew member ID, and role are required", []).
Proof. repeat split; reflexivity. Qed.

Lemma find_hd_error_filter {A} (w : A -> bool) (l : list A) :
  find w l = hd_error (filter w l).
Proof.
  induction l as [|y l IH]; simpl; [reflexivity|].
  destruct (w y); simpl; [reflexivity | exact IH].
Qed.

(** C6 (amended).  The assignment handler first requires [flight_id],
    [crew_member_id] and [role]; then checks, in order, that the flight
    exists, the crew member exists, both belong to the same airline, and the
    pair is not yet assigned.  The first failing check is answered 400 with
    its reason and no write; a request passing all of them is answered 201
    and inserts exactly one FlightCrew row, for that pair and role. *)
Theorem crew_assignment_checks d body :
  (forall r, validate_crew_assignment d body = Some r ->
     crew_assign d body = (reply 400 (assignment_message r), [])) /\
  (validate_crew_assignment d body = None ->
     let fr := [("flight_id", col body "flight_id");
                ("crew_member_id", col body "crew_member_id"); ("role", col body "role")] in
     code (fst (crew_assign d body)) = 201%Z /\
     snd (crew_assign d body) = [Insert flight_crew fr] /\
     rows (exec_all d (snd (crew_assign d body))) flight_crew
     = (rows d flight_crew ++ [fr])%list).
Proof.
  unfold crew_assign, validate_crew_assignment, select_where.
  rewrite !find_hd_error_filter, length_filter_ltb_0.
  cbn [forallb].
  assert (Hrej : forall m r, Some m = Some r ->
            (reply 400 (assignment_message m), @nil stmt)
            = (reply 400 (assignment_message r), [])) by congruence.
  destruct (truthy (col body "flight_id")); [|split; [exact (Hrej _) | discriminate]].
  destruct (truthy (col body "crew_member_id")); [|split; [exact (Hrej _) | discriminate]].
  destruct (truthy (col body "role")); [|split; [exact (Hrej _) | discriminate]].
  cbn [negb orb andb].
  destruct (filter (by_col "id" (col body "flight_id")) (rows d flight)) as [|f fs];
    cbn [length Nat.eqb hd hd_error]; [split; [exact (Hrej _) | discriminate]|].
  destruct (filter (by_col "id" (col body "crew_member_id")) (rows d crew_member)) as [|c cs];
    cbn [length Nat.eqb hd hd_error]; [split; [exact (Hrej _) | discriminate]|].
  destruct (js_strict_eq (col c "airline_id") (col f "airline_id")); cbn [negb];
    [|split; [exact (Hrej _) | discriminate]].
  destruct (existsb (assignment_of (col body "flight_id") (col body "crew_member_id"))
                    (rows d flight_crew));
    [split; [exact (Hrej _) | discriminate]|].
  split; [discriminate|]. intros _. cbv zeta.
  split; [reflexivity | split; [reflexivity|]].
  cbn [snd exec_all fold_left exec]. apply rows_set_rows_same.
Qed.

Lemma crew_assignment_checks_witness :
  code (fst (crew_assign d0 (assign_body "f1" "cm1" (Some "Captain")))) = 201%Z.
Proof.
  refine (proj1 (proj2 (crew_assignment_checks d0 (assign_body "f1" "cm1" (Some "Captain")))
                   _)).
  reflexivity.
Defined.

(** ** C7: status code of unresolved references *)

(** C7 as stated fails: a booking whose [flight_id] names no flight, and a
    flight whose departure airport names no airport, are answered 400, not
    404. *)
Lemma unresolved_reference_counterexample :
  resolves d0 flight (Some "f404") = false /\
  fst (bookings_post d0 "b9" None unknown_flight_booking) = reply 400 "Flight does not exist" /\
  resolves d0 airport (Some "ap404") = false /\
  fst (flights_post iso_date_value d0 "f9"
         (flight_body (Some "ap404") (Some "ap2") (Some "2024-01-02T10:00:00Z")
                      (Some "2024-01-02T11:00:00Z") None))
  = reply 400 "Departure airport does not exist".
Proof. repeat split; reflexivity. Qed.

(** C7 (amended).  A booking write whose [flight_id] or [passenger_id] does
    not resolve, or a flight write whose airport, aircraft or airline id does
    not resolve (earlier checks passing), is answered 400.  The create
    handlers of bookings and flights and the crew assignment never answer
    404; the booking and flight update handlers answer 404 only when the
    record addressed by the URL id does not exist. *)
Theorem unresolved_reference_answers_400 :
  (forall d i n body,
     truthy (col body "flight_id") = true -> truthy (col body "passenger_id") = true ->
     (resolves d flight (col body "flight_id") = false ->
        fst (bookings_post d i n body) = reply 400 "Flight does not exist") /\
     (resolves d flight (col body "flight_id") = true ->
      resolves d passenger (col body "passenger_id") = false ->
        fst (bookings_post d i n body) = reply 400 "Passenger does not exist")) /\
  (forall date_value d i body r,
     (forall s, col body "departure_time" = Some s -> date_value s <> None) ->
     (forall s, col body "arrival_time" = Some s -> date_value s <> None) ->
     validate_flight_write date_value d body = Some r ->
     r = UnknownDepartureAirport \/ r = UnknownArrivalAirport \/
     r = UnknownAircraft \/ r = UnknownAirline ->
     fst (flights_post date_value d i body) = reply 400 (reason_message r)) /\
  (forall d i n body, code (fst (bookings_post d i n body)) <> 404%Z) /\
  (forall date_value d i body, code (fst (flights_post date_value d i body)) <> 404%Z) /\
  (forall d body, code (fst (crew_assign d body)) <> 404%Z) /\
  (forall d id body, code (fst (bookings_put d id body)) = 404%Z ->
     resolves d booking (Some id) = false) /\
  (forall date_value d id body, code (fst (flights_put date_value d id body)) = 404%Z ->
     resolves d flight (Some id) = false) /\
  (forall d id body,
     resolves d booking (Some id) = true ->
     truthy (col body "flight_id") = true -> truthy (col body "passenger_id") = true ->
     (resolves d flight (col body "flight_id") = false ->
        fst (bookings_put d id body) = reply 400 "Flight does not exist") /\
     (resolves d flight (col body "flight_id") = true ->
      resolves d passenger (col body "passenger_id") = false ->
        fst (bookings_put d id body) = reply 400 "Passenger does not exist")) /\
  (forall date_value d id body r,
     resolves d flight (Some id) = true ->
     (forall s, col body "departure_time" = Some s -> date_value s <> None) ->
     (forall s, col body "arrival_time" = Some s -> date_value s <> None) ->
     validate_flight_write date_value d body = Some r ->
     r = UnknownDepartureAirport \/ r = UnknownArrivalAirport \/
     r = UnknownAircraft \/ r = UnknownAirline ->
     fst (flights_put date_value d id body) = reply 400 (reason_message r)).
Proof.
  split; [|split; [|split; [|split; [|split; [|split; [|split; [|split]]]]]]].
  - intros d i n body T1 T2. unfold bookings_post, resolves, select_where.
    rewrite !length_filter_eqb_0, T1, T2. cbn [negb orb].
    split; [intros H; rewrite H; reflexivity|].
    intros H1 H2. rewrite H1, H2. reflexivity.
  - intros date_value d i body r Hdep Harr Hv _.
    unfold flights_post. rewrite (flight_checks_validate date_value d body Hdep Harr), Hv.
    reflexivity.
  - intros d i n body. unfold bookings_post, reply_row. case_handler; intros H; discriminate H.
  - intros date_value d i body. unfold flights_post, reply_row. case_handler; intros H; discriminate H.
  - intros d body. unfold crew_assign, reply_row. case_handler; intros H; discriminate H.
  - intros d id body. unfold bookings_put, resolves, select_where.
    rewrite !length_filter_eqb_0.
    destruct (existsb (by_col "id" (Some id)) (rows d booking)); cbn [negb]; [|intros; reflexivity].
    unfold reply_row. case_handler; intros H; discriminate H.
  - intros date_value d id body. unfold flights_put, resolves, select_where.
    rewrite length_filter_eqb_0.
    destruct (existsb (by_col "id" (Some id)) (rows d flight)); cbn [negb]; [|intros; reflexivity].
    unfold reply_row. case_handler; intros H; discriminate H.
  - intros d id body Hb T1 T2. unfold bookings_put, resolves, select_where in *.
    rewrite !length_filter_eqb_0, Hb, T1, T2. cbn [negb orb].
    split; [intros H; rewrite H; reflexivity|].
    intros H1 H2. rewrite H1, H2. reflexivity.
  - intros date_value d id body r Hf Hdep Harr Hv _.
    unfold flights_put, resolves, select_where in *. rewrite length_filter_eqb_0, Hf.
    cbn [negb]. rewrite (flight_checks_validate date_value d body Hdep Harr), Hv.
    reflexivity.
Qed.

Lemma unresolved_reference_answers_400_witness :
  fst (bookings_post d0 "b9" None unknown_flight_booking) = reply 400 "Flight does not exist" /\
  resolves d0 booking (Some "b1") = true /\
  fst (bookings_put d0 "b1" unknown_flight_booking) = reply 400 "Flight does not exist".
Proof.
  assert (Hb : resolves d0 booking (Some "b1") = true) by reflexivity.
  split; [exact (proj1 (proj1 unresolved_reference_answers_400 d0 "b9" None
                          unknown_flight_booking eq_refl eq_refl) eq_refl)|].
  split; [exact Hb|].
  exact (proj1 (proj1 (proj2 (proj2 (proj2 (proj2 (proj2 (proj2 (proj2
           unresolved_reference_answers_400)))))))
           d0 "b1" unknown_flight_booking Hb eq_refl eq_refl) eq_refl).
Defined.

(** ** C8: which deletes cascade *)

(** C8 as stated fails: deleting crew member [cm1], which has one FlightCrew
    row, is not rejected; it succeeds and removes that row. *)
Lemma delete_cascade_counterexample :
  count_where d0 flight_crew (by_col "crew_member_id" (Some "cm1")) = 1 /\
  code (fst (run iso_date_value d0 (CrewDelete "cm1"))) = 200%Z /\
  rows (snd (run iso_date_value d0 (CrewDelete "cm1"))) flight_crew = [].
Proof. repeat split; reflexivity. Qed.

(** C8 (amended).  Two deletes cascade FlightCrew rows: a Flight delete (when
    no booking blocks it) and a CrewMember delete each first DELETE the
    FlightCrew rows that reference the entity, then the entity.  Airline,
    Airport, Aircraft and Passenger deletes that find dependent rows are
    rejected with their counts (a 400 whose data are the counts of the
    dependent rows of each kind) and write nothing; those four and the Booking
    delete never issue any DELETE other than the one of their own row. *)
Theorem delete_cascade_kinds date_value d :
  (forall id,
     existsb (by_col "id" (Some id)) (rows d flight) = true ->
     count_where d booking (by_col "flight_id" (Some id)) = 0 ->
     0 < count_where d flight_crew (by_col "flight_id" (Some id)) ->
     snd (handle date_value d (FlightsDelete id))
     = [Delete flight_crew (by_col "flight_id" (Some id)); Delete flight (by_col "id" (Some id))]) /\
  (forall id,
     existsb (by_col "id" (Some id)) (rows d crew_member) = true ->
     0 < count_where d flight_crew (by_col "crew_member_id" (Some id)) ->
     code (fst (handle date_value d (CrewDelete id))) = 200%Z /\
     snd (handle date_value d (CrewDelete id))
     = [Delete flight_crew (by_col "crew_member_id" (Some id));
        Delete crew_member (by_col "id" (Some id))]) /\
  (forall id,
     existsb (by_col "id" (Some id)) (rows d airline) = true ->
     0 < count_where d aircraft (by_col "airline_id" (Some id))
       + count_where d flight (by_col "airline_id" (Some id))
       + count_where d crew_member (by_col "airline_id" (Some id)) ->
     counts_rejection (handle date_value d (AirlinesDelete id))
       "Cannot delete airline with related records"
       [("aircraft", count_where d aircraft (by_col "airline_id" (Some id)));
        ("flights", count_where d flight (by_col "airline_id" (Some id)));
        ("crewMembers", count_where d crew_member (by_col "airline_id" (Some id)))]) /\
  (forall id,
     existsb (by_col "id" (Some id)) (rows d airport) = true ->
     0 < count_where d flight (by_col "departure_airport_id" (Some id))
       + count_where d flight (by_col "arrival_airport_id" (Some id)) ->
     counts_rejection (handle date_value d (AirportsDelete id))
       "Cannot delete airport with related flights"
       [("departing", count_where d flight (by_col "departure_airport_id" (Some id)));
        ("arriving", count_where d flight (by_col "arrival_airport_id" (Some id)))]) /\
  (forall id,
     existsb (by_col "id" (Some id)) (rows d aircraft) = true ->
     0 < count_where d flight (by_col "aircraft_id" (Some id)) ->
     counts_rejection (handle date_value d (AircraftDelete id))
       "Cannot delete aircraft with related flights"
       [("flights", count_where d flight (by_col "aircraft_id" (Some id)))]) /\
  (forall id,
     existsb (by_col "id" (Some id)) (rows d passenger) = true ->
     0 < count_where d booking (by_col "passenger_id" (Some id)) ->
     counts_rejection (handle date_value d (PassengersDelete id))
       "Cannot delete passenger with related bookings"
       [("bookings", count_where d booking (by_col "passenger_id" (Some id)))]) /\
  (forall req t, plain_delete_table req = Some t ->
     snd (handle date_value d req) = [] \/
     exists w, snd (handle date_value d req) = [Delete t w]).
Proof.
  split; [|split; [|split; [|split; [|split; [|split]]]]].
  - intros id Hex Hb Hc. cbn [handle]. unfold flights_delete, select_where.
    rewrite length_filter_eqb_0, Hex, Hb. apply Nat.ltb_lt in Hc. rewrite Hc. reflexivity.
  - intros id Hex Hc. cbn [handle]. unfold crew_delete, select_where.
    rewrite length_filter_eqb_0, Hex. apply Nat.ltb_lt in Hc. rewrite Hc.
    split; reflexivity.
  - intros id Hex Hn. cbn [handle]. unfold airlines_delete, select_where.
    rewrite length_filter_eqb_0, Hex. cbn [negb].
    replace (Nat.ltb 0 (count_where d aircraft (by_col "airline_id" (Some id)))
             || Nat.ltb 0 (count_where d flight (by_col "airline_id" (Some id)))
             || Nat.ltb 0 (count_where d crew_member (by_col "airline_id" (Some id))))
      with true.
    + split; reflexivity.
    + symmetry. rewrite !orb_true_iff, !Nat.ltb_lt. lia.
  - intros id Hex Hn. cbn [handle]. unfold airports_delete, select_where.
    rewrite length_filter_eqb_0, Hex. cbn [negb].
    replace (Nat.ltb 0 (count_where d flight (by_col "departure_airport_id" (Some id)))
             || Nat.ltb 0 (count_where d flight (by_col "arrival_airport_id" (Some id))))
      with true.
    + split; reflexivity.
    + symmetry. rewrite !orb_true_iff, !Nat.ltb_lt. lia.
  - intros id Hex Hn. cbn [handle]. unfold aircraft_delete, select_where.
    rewrite length_filter_eqb_0, Hex. cbn [negb]. apply Nat.ltb_lt in Hn. rewrite Hn.
    split; reflexivity.
  - intros id Hex Hn. cbn [handle]. unfold passengers_delete, select_where.
    rewrite length_filter_eqb_0, Hex. cbn [negb]. apply Nat.ltb_lt in Hn. rewrite Hn.
    split; reflexivity.
  - intros req t Ht.
    destruct req; cbn [plain_delete_table] in Ht; try discriminate Ht;
      injection Ht as <-; cbn [handle];
      unfold airlines_delete, airports_delete, aircraft_delete, passengers_delete,
        bookings_delete;
      case_handler; eauto.
Qed.

Lemma delete_cascade_kinds_witness :
  existsb (by_col "id" (Some "cm1")) (rows d0 crew_member) = true /\
  0 < count_where d0 flight_crew (by_col "crew_member_id" (Some "cm1")) /\
  code (fst (handle iso_date_value d0 (CrewDelete "cm1"))) = 200%Z /\
  fst (handle iso_date_value d0 (AirlinesDelete "a1"))
  = mkresp 400 "Cannot delete airline with related records"
      (Some (PCounts [("aircraft", 1); ("flights", 2); ("crewMembers", 1)])).
Proof.
  assert (H1 : existsb (by_col "id" (Some "cm1")) (rows d0 crew_member) = true)
    by reflexivity.
  assert (H2 : 0 < count_where d0 flight_crew (by_col "crew_member_id" (Some "cm1")))
    by (vm_compute; lia).
  assert (H3 : existsb (by_col "id" (Some "a1")) (rows d0 airline) = true) by reflexivity.
  assert (H4 : 0 < count_where d0 aircraft (by_col "airline_id" (Some "a1"))
                   + count_where d0 flight (by_col "airline_id" (Some "a1"))
                   + count_where d0 crew_member (by_col "airline_id" (Some "a1")))
    by (vm_compute; lia).
  split; [exact H1 | split; [exact H2 | split]].
  - exact (proj1 (proj1 (proj2 (delete_cascade_kinds iso_date_value d0)) "cm1" H1 H2)).
  - exact (proj1 (proj1 (proj2 (proj2 (delete_cascade_kinds iso_date_value d0))) "a1" H3 H4)).
Defined.

(** ** C9: the default status *)

(** C9 as stated fails for updates: an accepted update of flight [f1] whose
    body leaves [status] unset writes NULL into the status column. *)
Lemma default_status_counterexample :
  truthy (col good_flight_body "status") = false /\
  code (fst (flights_put iso_date_value d0 "f1" good_flight_body)) = 200%Z /\
  map (fun r => col r "status")
      (select_where (snd (run iso_date_value d0 (FlightsPut "f1" good_flight_body)))
                    flight (by_col "id" (Some "f1")))
  = [None].
Proof. repeat split; reflexivity. Qed.

Lemma col_set_cols s r c :
  has_col r c = true -> col (set_cols s r) c = if has_col s c then col s c else col r c.
Proof.
  induction r as [|[k v] r IH]; simpl; [discriminate|].
  destruct (String.eqb k c) eqn:E; simpl.
  - intros _. apply String.eqb_eq in E. subst k. reflexivity.
  - intros H. exact (IH H).
Qed.

(** C9 (amended).  An accepted flight create whose [status] is unset (falsy)
    appends one flight row whose status is "Scheduled".  An accepted flight
    update writes the body's [status] as sent into the updated row, so an
    unset status is stored as NULL: the update replaces the full record and
    applies no default. *)
Theorem flight_status_default date_value d :
  (forall i body,
     code (fst (flights_post date_value d i body)) = 201%Z ->
     truthy (col body "status") = false ->
     exists r, rows (exec_all d (snd (flights_post date_value d i body))) flight
               = (rows d flight ++ [r])%list /\
               col r "status" = Some "Scheduled") /\
  (forall id body,
     flight_rows_have_status d ->
     code (fst (flights_put date_value d id body)) = 200%Z ->
     forall r, In r (rows (exec_all d (snd (flights_put date_value d id body))) flight) ->
     by_col "id" (Some id) r = true ->
     col r "status" = col body "status").
Proof.
  split.
  - intros i body Hc Hs. unfold flights_post in *.
    destruct (flight_checks date_value d body); [discriminate Hc|].
    eexists. split.
    + cbn [snd exec_all fold_left exec]. apply rows_set_rows_same.
    + cbn. rewrite Hs. reflexivity.
  - intros id body Hwf Hc r Hin Hid. unfold flights_put in *.
    destruct (Nat.eqb _ 0); [discriminate Hc|].
    destruct (flight_checks date_value d body); [discriminate Hc|].
    cbn [snd exec_all fold_left exec] in Hin. rewrite rows_set_rows_same in Hin.
    apply in_map_iff in Hin as [r0 [Hr0 Hin0]].
    destruct (by_col "id" (Some id) r0) eqn:Ew.
    + subst r. rewrite col_set_cols by exact (Hwf r0 Hin0). reflexivity.
    + subst r. congruence.
Qed.

Lemma flight_status_default_witness :
  code (fst (flights_post iso_date_value d0 "f9" good_flight_body)) = 201%Z /\
  truthy (col good_flight_body "status") = false /\
  exists r, rows (exec_all d0 (snd (flights_post iso_date_value d0 "f9" good_flight_body)))
              flight = (rows d0 flight ++ [r])%list /\ col r "status" = Some "Scheduled".
Proof.
  assert (H1 : code (fst (flights_post iso_date_value d0 "f9" good_flight_body)) = 201%Z)
    by reflexivity.
  assert (H2 : truthy (col good_flight_body "status") = false) by reflexivity.
  split; [exact H1 | split; [exact H2 |]].
  exact (proj1 (flight_status_default iso_date_value d0) "f9" good_flight_body H1 H2).
Defined.

(** ** C10: timestamps that do not parse *)

(** C10.  When the departure or the arrival time does not parse (an Invalid
    Date, whose time value is NaN), the guard [departureDate >= arrivalDate]
    is false, so the time-order check never rejects the candidate; when the
    remaining checks pass, the flight is created. *)
Theorem unparsed_time_passes_order_check date_value d i body :
  js_date date_value (col body "departure_time") = None \/
  js_date date_value (col body "arrival_time") = None ->
  flight_checks date_value d body <> Some "Departure time must be before arrival time" /\
  (forallb truthy [col body "flight_number"; col body "departure_airport_id";
                   col body "arrival_airport_id"; col body "departure_time";
                   col body "arrival_time"; col body "aircraft_id";
                   col body "airline_id"] = true ->
   js_strict_eq (col body "departure_airport_id") (col body "arrival_airport_id") = false ->
   resolves d airport (col body "departure_airport_id") = true ->
   resolves d airport (col body "arrival_airport_id") = true ->
   resolves d aircraft (col body "aircraft_id") = true ->
   resolves d airline (col body "airline_id") = true ->
   (forall r, find (by_col "id" (col body "aircraft_id")) (rows d aircraft) = Some r ->
      js_strict_eq (col r "airline_id") (col body "airline_id") = true) ->
   code (fst (flights_post date_value d i body)) = 201%Z).
Proof.
  intros Hnan.
  assert (Hge : js_date_ge (js_date date_value (col body "departure_time"))
                           (js_date date_value (col body "arrival_time")) = false).
  { destruct Hnan as [H|H]; rewrite H; [reflexivity|].
    destruct (js_date date_value (col body "departure_time")); reflexivity. }
  split.
  - unfold flight_checks. cbv zeta. rewrite Hge.
    split_handler; intros H; discriminate H.
  - intros Hreq Hne Hdep Harr Hac Hal Hown.
    unfold flights_post, flight_checks. cbv zeta.
    cbn [forallb] in Hreq. rewrite !andb_true_iff in Hreq.
    destruct Hreq as [-> [-> [-> [-> [-> [-> [-> _]]]]]]].
    cbn [negb orb]. rewrite Hne, Hge.
    unfold resolves in *. unfold select_where.
    rewrite !length_filter_eqb_0, Hdep, Harr, Hac, Hal. cbn [negb].
    rewrite hd_filter_find.
    destruct (find (by_col "id" (col body "aircraft_id")) (rows d aircraft)) as [r|] eqn:Ef.
    + unfold row in *. rewrite Ef. rewrite (Hown r eq_refl). reflexivity.
    + rewrite (find_none_existsb _ _ Ef) in Hac. discriminate Hac.
Qed.

Lemma unparsed_time_passes_order_check_witness :
  js_date iso_date_value (col unparsed_times_body "departure_time") = None /\
  code (fst (flights_post iso_date_value d0 "f9" unparsed_times_body)) = 201%Z.
Proof.
  assert (H : js_date iso_date_value (col unparsed_times_body "departure_time") = None)
    by reflexivity.
  split; [exact H|].
  apply (proj2 (unparsed_time_passes_order_check iso_date_value d0 "f9" unparsed_times_body
                  (or_introl H)));
    try reflexivity.
  intros r Hr. vm_compute in Hr. injection Hr as <-. reflexivity.
Defined.

(** * Further properties of the handlers *)

(** ** Lemmas on statements and tables *)

Lemma table_eqb_spec a b : table_eqb a b = true <-> a = b.
Proof. destruct a, b; simpl; split; congruence. Qed.

Lemma set_rows_rows d t : set_rows d t (rows d t) = d.
Proof. destruct d, t; reflexivity. Qed.

Lemma set_rows_set_rows d t rs rs' : set_rows (set_rows d t rs) t rs' = set_rows d t rs'.
Proof. destruct d, t; reflexivity. Qed.

Lemma run_fst date_value d req :
  fst (run date_value d req) = fst (handle date_value d req).
Proof. unfold run. destruct (handle date_value d req); reflexivity. Qed.

Lemma run_snd date_value d req :
  snd (run date_value d req) = exec_all d (snd (handle date_value d req)).
Proof. unfold run. destruct (handle date_value d req); reflexivity. Qed.

Lemma exec_other d s t : stmt_table s <> t -> rows (exec d s) t = rows d t.
Proof. destruct s; simpl; intros H; apply rows_set_rows_other; exact H. Qed.

Lemma exec_all_other d ss t :
  (forall s, In s ss -> stmt_table s <> t) -> rows (exec_all d ss) t = rows d t.
Proof.
  unfold exec_all. revert d.
  induction ss as [|s ss IH]; intros d H; simpl; [reflexivity|].
  rewrite IH by (intros s' Hs'; apply H; right; exact Hs').
  apply exec_other, H. left. reflexivity.
Qed.

Lemma filter_all_true {A} (l : list A) : filter (fun _ => true) l = l.
Proof. induction l as [|x l IH]; simpl; congruence. Qed.

Lemma filter_filter {A} (f g : A -> bool) (l : list A) :
  filter g (filter f l) = filter (fun x => f x && g x) l.
Proof.
  induction l as [|x l IH]; simpl; [reflexivity|].
  destruct (f x); simpl; [destruct (g x); simpl; [f_equal|]|]; exact IH.
Qed.

Lemma exec_no_fill d s t :
  filled_table s <> Some t -> exists f, rows (exec d s) t = filter f (rows d t).
Proof.
  destruct s as [t' r|t' w s|t' w]; simpl; intros H.
  - exists (fun _ => true). rewrite filter_all_true.
    apply rows_set_rows_other. congruence.
  - exists (fun _ => true). rewrite filter_all_true.
    apply rows_set_rows_other. congruence.
  - destruct (table_eqb t' t) eqn:E.
    + apply table_eqb_spec in E. subst t'.
      exists (fun r => negb (w r)). apply rows_set_rows_same.
    + exists (fun _ => true). rewrite filter_all_true.
      apply rows_set_rows_other. intros <-.
      rewrite (proj2 (table_eqb_spec t' t') eq_refl) in E. discriminate.
Qed.

Lemma exec_all_no_fill d ss t :
  (forall s, In s ss -> filled_table s <> Some t) ->
  exists f, rows (exec_all d ss) t = filter f (rows d t).
Proof.
  unfold exec_all. revert d.
  induction ss as [|s ss IH]; intros d H; simpl.
  - exists (fun _ => true). symmetry. apply filter_all_true.
  - destruct (exec_no_fill d s t) as [f Hf]; [apply H; left; reflexivity|].
    destruct (IH (exec d s)) as [g Hg]; [intros s' Hs'; apply H; right; exact Hs'|].
    exists (fun x => f x && g x). rewrite Hg, Hf. apply filter_filter.
Qed.

(** Every statement a handler issues writes to a table of its footprint, and
    adds or rewrites rows only of the tables of [filled_tables]. *)
Lemma writes_in_footprint date_value d req s :
  In s (snd (handle date_value d req)) ->
  In (stmt_table s) (footprint req) /\
  (forall t, filled_table s = Some t -> In t (filled_tables req)).
Proof.
  destruct req; cbn [handle];
  unfold airlines_post, airlines_put, airlines_delete, airports_post, airports_put,
    airports_delete, aircraft_post, aircraft_put, aircraft_delete, flights_post,
    flights_put, flights_delete, passengers_post, passengers_put, passengers_delete,
    bookings_post, bookings_put, bookings_delete, crew_post, crew_put, crew_delete,
    crew_assign, crew_unassign, reply_row;
  cbv zeta; split_handler;
  repeat match goal with |- context [match ?l with [] => _ | _ :: _ => _ end] =>
    destruct l end;
  cbn [snd In app];
  intros H; repeat destruct H as [<-|H]; try contradiction;
  (split; [cbn; tauto | intros t Ht; cbn in Ht |- *; try discriminate Ht;
                        injection Ht as <-; tauto]).
Qed.

Lemma sql_eq_sym a b : sql_eq a b = sql_eq b a.
Proof. destruct a, b; simpl; try reflexivity. apply String.eqb_sym. Qed.

Lemma sql_eq_true a b : sql_eq a b = true -> a = b /\ exists s, a = Some s.
Proof.
  destruct a as [x|], b as [y|]; simpl; try discriminate.
  intros H. apply String.eqb_eq in H. subst. eauto.
Qed.

Lemma by_col_id_neq r id x :
  col r "id" = Some x -> by_col "id" (Some id) r = false -> sql_neq (col r "id") (Some id) = true.
Proof. unfold by_col. intros Hx. rewrite Hx. simpl. intros H. rewrite H. reflexivity. Qed.

Lemma col_set_cols_absent s r c : has_col s c = false -> col (set_cols s r) c = col r c.
Proof.
  intros Hs. induction r as [|[k v] r IH]; simpl; [reflexivity|].
  destruct (String.eqb k c) eqn:E; [|exact IH].
  apply String.eqb_eq in E. subst k. rewrite Hs. reflexivity.
Qed.

Lemma keyed_has_col d t cs r c :
  keyed_rows d t cs -> In r (rows d t) -> In c cs -> has_col r c = true.
Proof.
  intros Hk Hr Hc. destruct (Hk r Hr) as [_ H].
  rewrite forallb_forall in H. apply H, Hc.
Qed.

Lemma map_if_unmatched (w : row -> bool) (f : row -> row) (l : list row) :
  existsb w l = false -> map (fun r => if w r then f r else r) l = l.
Proof.
  induction l as [|x l IH]; simpl; [reflexivity|].
  intros H. apply orb_false_iff in H as [H1 H2]. rewrite H1, IH by exact H2. reflexivity.
Qed.

Lemma update_unmatched_noop d t w s : existsb w (rows d t) = false -> exec d (Update t w s) = d.
Proof.
  intros H. cbn [exec]. rewrite map_if_unmatched by exact H. apply set_rows_rows.
Qed.

Lemma filter_negb_existsb {A} (w : A -> bool) (l : list A) :
  existsb w l = false -> filter (fun r => negb (w r)) l = l.
Proof.
  induction l as [|x l IH]; simpl; [reflexivity|].
  intros H. apply orb_false_iff in H as [H1 H2]. rewrite H1. simpl. f_equal. exact (IH H2).
Qed.

Lemma existsb_filter_negb {A} (w : A -> bool) (l : list A) :
  existsb w (filter (fun r => negb (w r)) l) = false.
Proof.
  induction l as [|x l IH]; simpl; [reflexivity|].
  destruct (w x) eqn:E; simpl; [exact IH | rewrite E; exact IH].
Qed.

Lemma existsb_filter_false {A} (w f : A -> bool) (l : list A) :
  existsb w l = false -> existsb w (filter f l) = false.
Proof.
  induction l as [|x l IH]; simpl; [reflexivity|].
  intros H. apply orb_false_iff in H as [H1 H2].
  destruct (f x); simpl; [rewrite H1|]; exact (IH H2).
Qed.

(** ** Which tables a request changes *)

(** Every endpoint changes only the tables of its footprint: the create,
    update and delete endpoints of an entity touch its own table, except that
    the flight and crew-member deletes also remove FlightCrew rows, the crew
    assignment touches only FlightCrew, and the removal request (answered by
    the crew-member delete) may touch crew members and FlightCrew.  In particular no delete
    cascades into bookings, aircraft, flights or crew members. *)
Theorem request_footprint date_value d req t :
  existsb (table_eqb t) (footprint req) = false ->
  rows (snd (run date_value d req)) t = rows d t.
Proof.
  intros Ht. rewrite run_snd. apply exec_all_other.
  intros s Hs Heq. destruct (writes_in_footprint date_value d req s Hs) as [Hin _].
  rewrite Heq in Hin.
  assert (Hx : existsb (table_eqb t) (footprint req) = true).
  { apply existsb_exists. exists t. split; [exact Hin | apply table_eqb_spec; reflexivity]. }
  congruence.
Qed.

Lemma request_footprint_witness :
  existsb (table_eqb booking) (footprint (FlightsDelete "f2")) = false /\
  rows (snd (run iso_date_value d0 (FlightsDelete "f2"))) booking = rows d0 booking.
Proof.
  assert (H : existsb (table_eqb booking) (footprint (FlightsDelete "f2")) = false)
    by reflexivity.
  split; [exact H | exact (request_footprint iso_date_value d0 _ _ H)].
Defined.

(** ** Answers 404 *)

(** A request answered 404 leaves the database as it was.  The airline,
    airport and aircraft updates run their UPDATE before they know whether
    the row exists; that UPDATE then matches no row and changes nothing. *)
Theorem not_found_leaves_state date_value d req :
  code (fst (run date_value d req)) = 404%Z -> snd (run date_value d req) = d.
Proof.
  rewrite run_fst, run_snd.
  destruct req; cbn [handle];
  unfold airlines_post, airlines_put, airlines_delete, airports_post, airports_put,
    airports_delete, aircraft_post, aircraft_put, aircraft_delete, flights_post,
    flights_put, flights_delete, passengers_post, passengers_put, passengers_delete,
    bookings_post, bookings_put, bookings_delete, crew_post, crew_put, crew_delete,
    crew_assign, crew_unassign, reply_row, update_returning, select_where;
  cbv zeta; rewrite ?length_map, ?length_filter_eqb_0;
  split_handler_eqn;
  repeat match goal with |- context [match ?l with [] => _ | _ :: _ => _ end] =>
    destruct l end;
  cbn [fst snd code reply]; intros H; try discriminate H; try reflexivity;
  apply update_unmatched_noop; apply negb_true_iff; assumption.
Qed.

Lemma not_found_leaves_state_witness :
  code (fst (run iso_date_value d0 (AirlinesPut "a9" [("name", Some "New Air")]))) = 404%Z /\
  snd (run iso_date_value d0 (AirlinesPut "a9" [("name", Some "New Air")])) = d0.
Proof.
  assert (H : code (fst (run iso_date_value d0
                (AirlinesPut "a9" [("name", Some "New Air")]))) = 404%Z) by reflexivity.
  split; [exact H | exact (not_found_leaves_state iso_date_value d0 _ H)].
Defined.

(** ** Creates *)

(** Every request answered 201 (the seven creates and the crew assignment)
    executes exactly one INSERT, appends the inserted row at the end of its
    table, and returns that row as [data]; for the creates, the row's id is
    the generated uuid. *)
Theorem create_appends_returned_row date_value d req :
  code (fst (run date_value d req)) = 201%Z ->
  exists t r,
    snd (handle date_value d req) = [Insert t r] /\
    data (fst (handle date_value d req)) = Some (PRow r) /\
    rows (snd (run date_value d req)) t = (rows d t ++ [r])%list /\
    (forall i, created_id req = Some i -> col r "id" = Some i).
Proof.
  rewrite run_fst, run_snd. destruct d.
  destruct req; cbn [handle];
  unfold airlines_post, airlines_put, airlines_delete, airports_post, airports_put,
    airports_delete, aircraft_post, aircraft_put, aircraft_delete, flights_post,
    flights_put, flights_delete, passengers_post, passengers_put, passengers_delete,
    bookings_post, bookings_put, bookings_delete, crew_post, crew_put, crew_delete,
    crew_assign, crew_unassign, reply_row;
  case_handler; intros H; try discriminate H;
  do 2 eexists; (split; [reflexivity|]); (split; [reflexivity|]); (split; [reflexivity|]);
  intros i Hi; cbn in Hi |- *; congruence.
Qed.

Lemma create_appends_returned_row_witness :
  code (fst (run iso_date_value d0 booking_request_b9)) = 201%Z /\
  exists t r,
    snd (handle iso_date_value d0 booking_request_b9) = [Insert t r] /\
    data (fst (handle iso_date_value d0 booking_request_b9)) = Some (PRow r) /\
    rows (snd (run iso_date_value d0 booking_request_b9)) t = (rows d0 t ++ [r])%list /\
    (forall i, created_id booking_request_b9 = Some i -> col r "id" = Some i).
Proof.
  assert (H : code (fst (run iso_date_value d0 booking_request_b9)) = 201%Z) by reflexivity.
  split; [exact H | exact (create_appends_returned_row iso_date_value d0 _ H)].
Defined.

(** ** Uniqueness invariants *)

Lemma no_fill_request date_value d req t :
  existsb (table_eqb t) (filled_tables req) = false ->
  exists f, rows (snd (run date_value d req)) t = filter f (rows d t).
Proof.
  intros Ht. rewrite run_snd. apply exec_all_no_fill.
  intros s Hs Heq. destruct (writes_in_footprint date_value d req s Hs) as [_ Hf].
  specialize (Hf t Heq).
  assert (Hx : existsb (table_eqb t) (filled_tables req) = true).
  { apply existsb_exists. exists t. split; [exact Hf | apply table_eqb_spec; reflexivity]. }
  congruence.
Qed.

Lemma passengers_post_accepted d i body :
  snd (passengers_post d i body) = [] \/
  (existsb (by_col "email" (col body "email")) (rows d passenger) = false /\
   exists r, snd (passengers_post d i body) = [Insert passenger r] /\
     col r "id" = Some i /\ col r "email" = col body "email").
Proof.
  unfold passengers_post, select_where. cbv zeta. rewrite length_filter_ltb_0.
  destruct (truthy (col body "first_name")); [|left; reflexivity].
  destruct (truthy (col body "last_name")); [|left; reflexivity].
  destruct (truthy (col body "email")); [|left; reflexivity].
  cbn [negb orb].
  destruct (existsb _ _); [left; reflexivity|].
  right. split; [reflexivity|]. eexists. split; [reflexivity|]. split; reflexivity.
Qed.

Lemma passengers_put_accepted d id body :
  snd (passengers_put d id body) = [] \/
  (existsb (other_with_email (col body "email") id) (rows d passenger) = false /\
   exists s, snd (passengers_put d id body) = [Update passenger (by_col "id" (Some id)) s] /\
     has_col s "id" = false /\ has_col s "email" = true /\ col s "email" = col body "email").
Proof.
  unfold passengers_put, select_where. cbv zeta.
  rewrite length_filter_eqb_0, length_filter_ltb_0.
  destruct (truthy (col body "first_name")); [|left; reflexivity].
  destruct (truthy (col body "last_name")); [|left; reflexivity].
  destruct (truthy (col body "email")); [|left; reflexivity].
  cbn [negb orb].
  destruct (existsb (by_col "id" (Some id)) _); [cbn [negb] | left; reflexivity].
  destruct (existsb _ _); [left; reflexivity|].
  right. split; [reflexivity|]. eexists. split; [reflexivity|]. repeat split; reflexivity.
Qed.

Lemma emails_unique_filter d d' f :
  rows d' passenger = filter f (rows d passenger) -> emails_unique d -> emails_unique d'.
Proof.
  intros Hf Hu r1 r2 H1 H2 He. rewrite Hf in H1, H2.
  apply filter_In in H1 as [H1 _]. apply filter_In in H2 as [H2 _].
  exact (Hu r1 r2 H1 H2 He).
Qed.

Lemma passengers_post_emails_unique d i body :
  emails_unique d -> emails_unique (exec_all d (snd (passengers_post d i body))).
Proof.
  intros Hu.
  destruct (passengers_post_accepted d i body) as [Hn | [Hex [r [Hs [Hi He]]]]].
  { rewrite Hn. exact Hu. }
  rewrite Hs. cbn [exec_all fold_left exec].
  assert (Hnot : forall r', In r' (rows d passenger) ->
                 sql_eq (col r' "email") (col body "email") = false).
  { intros r' Hr'. destruct (sql_eq _ _) eqn:E; [|reflexivity].
    rewrite (existsb_In_true _ _ r' Hr' E) in Hex. discriminate. }
  intros r1 r2 H1 H2 Heq. rewrite rows_set_rows_same in H1, H2.
  apply in_app_or in H1, H2. simpl in H1, H2.
  destruct H1 as [H1 | [<- | []]], H2 as [H2 | [<- | []]].
  - exact (Hu r1 r2 H1 H2 Heq).
  - rewrite He, Hnot in Heq by exact H1. discriminate.
  - rewrite He, sql_eq_sym, Hnot in Heq by exact H2. discriminate.
  - reflexivity.
Qed.

Lemma passengers_put_emails_unique d id body :
  keyed_rows d passenger ["email"] -> emails_unique d ->
  emails_unique (exec_all d (snd (passengers_put d id body))).
Proof.
  intros Hk Hu.
  destruct (passengers_put_accepted d id body) as [Hn | [Hex [s [Hs [Si [Sh Se]]]]]].
  { rewrite Hn. exact Hu. }
  rewrite Hs. cbn [exec_all fold_left exec].
  intros r1' r2' H1 H2 He. rewrite rows_set_rows_same in H1, H2.
  apply in_map_iff in H1 as [r1 [<- H1]]. apply in_map_iff in H2 as [r2 [<- H2]].
  assert (Hid : forall r, col (if by_col "id" (Some id) r then set_cols s r else r) "id"
                          = col r "id").
  { intros r. destruct (by_col _ _ r); [apply col_set_cols_absent, Si | reflexivity]. }
  rewrite !Hid.
  assert (Hem : forall r, In r (rows d passenger) ->
                col (set_cols s r) "email" = col body "email").
  { intros r Hr. rewrite col_set_cols, Sh; [exact Se|].
    apply (keyed_has_col _ _ _ _ _ Hk Hr). left. reflexivity. }
  assert (Hother : forall r, In r (rows d passenger) -> by_col "id" (Some id) r = false ->
                   sql_eq (col r "email") (col body "email") = true -> False).
  { intros r Hr Hb Heq. destruct (Hk r Hr) as [[x Hx] _].
    assert (Hw : other_with_email (col body "email") id r = true).
    { unfold other_with_email. rewrite Heq, (by_col_id_neq r id x Hx Hb). reflexivity. }
    rewrite (existsb_In_true _ _ r Hr Hw) in Hex. discriminate. }
  destruct (by_col "id" (Some id) r1) eqn:B1, (by_col "id" (Some id) r2) eqn:B2.
  - unfold by_col in B1, B2.
    destruct (sql_eq_true _ _ B1) as [E1 _]. destruct (sql_eq_true _ _ B2) as [E2 _].
    congruence.
  - exfalso. rewrite Hem in He by exact H1. apply (Hother r2 H2 B2).
    rewrite sql_eq_sym. exact He.
  - exfalso. rewrite (Hem r2 H2) in He. exact (Hother r1 H1 B1 He).
  - exact (Hu r1 r2 H1 H2 He).
Qed.

(** Passenger e-mails stay unique under every request: in a database whose
    passenger rows have an id and an [email] column and whose e-mails are
    unique, each endpoint leaves the e-mails unique.  Only the passenger
    create and update add or rewrite passenger rows, and both check the
    e-mail first; the update's check excludes the passenger's own id.  Each
    handler runs as one step here; the handlers use no transaction, so two
    concurrent requests are outside this statement. *)
Theorem emails_unique_preserved date_value d req :
  keyed_rows d passenger ["email"] -> emails_unique d ->
  emails_unique (snd (run date_value d req)).
Proof.
  intros Hk Hu.
  destruct req;
    try (match goal with |- emails_unique (snd (run _ _ ?R)) =>
           destruct (no_fill_request date_value d R passenger eq_refl) as [f Hf] end;
         exact (emails_unique_filter _ _ _ Hf Hu)).
  - rewrite run_snd. apply passengers_post_emails_unique, Hu.
  - rewrite run_snd. apply passengers_put_emails_unique; assumption.
Qed.

Lemma keyed_d0_passenger : keyed_rows d0 passenger ["email"].
Proof.
  intros r Hr. simpl in Hr.
  destruct Hr as [<-|[<-|[]]]; (split; [eexists; reflexivity | reflexivity]).
Qed.

Lemma emails_unique_preserved_witness :
  keyed_rows d0 passenger ["email"] /\ emails_unique d0 /\
  emails_unique (snd (run iso_date_value d0
    (PassengersPut "p2" [("first_name", Some "Bob"); ("last_name", Some "Ray");
                         ("email", Some "bob.ray@example.com")]))).
Proof.
  split; [exact keyed_d0_passenger | split; [exact emails_unique_d0 |]].
  exact (emails_unique_preserved iso_date_value d0 _ keyed_d0_passenger emails_unique_d0).
Defined.

Lemma bookings_post_accepted d i now body :
  (code (fst (bookings_post d i now body)) = 400%Z /\ snd (bookings_post d i now body) = []) \/
  (code (fst (bookings_post d i now body)) = 201%Z /\
   (truthy (col body "seat_number") = true ->
    existsb (same_seat (col body "flight_id") (col body "seat_number")) (rows d booking)
    = false) /\
   exists r, snd (bookings_post d i now body) = [Insert booking r] /\
     col r "id" = Some i /\ col r "flight_id" = col body "flight_id" /\
     col r "seat_number" = col body "seat_number" /\
     col r "passenger_id" = col body "passenger_id" /\ col r "booking_date" = now /\
     col r "booking_status" = (if truthy (col body "booking_status")
                               then col body "booking_status" else Some "Confirmed")).
Proof.
  unfold bookings_post, select_where. cbv zeta.
  rewrite !length_filter_eqb_0, length_filter_ltb_0.
  destruct (negb (truthy (col body "flight_id")) || negb (truthy (col body "passenger_id")));
    [left; split; reflexivity|].
  destruct (negb (existsb _ (rows d flight))); [left; split; reflexivity|].
  destruct (negb (existsb _ (rows d passenger))); [left; split; reflexivity|].
  destruct (truthy (col body "seat_number")) eqn:Ts; cbn [andb].
  - destruct (existsb _ _) eqn:Ex; [left; split; reflexivity|].
    right. split; [reflexivity|]. split; [intros _; first [exact Ex | reflexivity]|].
    eexists. split; [reflexivity|]. repeat split; reflexivity.
  - right. split; [reflexivity|]. split; [discriminate|].
    eexists. split; [reflexivity|]. repeat split; reflexivity.
Qed.

Lemma bookings_put_accepted d id body :
  snd (bookings_put d id body) = [] \/
  ((truthy (col body "seat_number") = true ->
    existsb (fun r => same_seat (col body "flight_id") (col body "seat_number") r
                      && sql_neq (col r "id") (Some id)) (rows d booking) = false) /\
   exists s, snd (bookings_put d id body) = [Update booking (by_col "id" (Some id)) s] /\
     has_col s "id" = false /\ has_col s "booking_date" = false /\
     has_col s "flight_id" = true /\ col s "flight_id" = col body "flight_id" /\
     has_col s "seat_number" = true /\ col s "seat_number" = col body "seat_number").
Proof.
  unfold bookings_put, select_where. cbv zeta.
  rewrite !length_filter_eqb_0, length_filter_ltb_0.
  destruct (negb (existsb _ (rows d booking))); [left; reflexivity|].
  destruct (negb (truthy (col body "flight_id")) || negb (truthy (col body "passenger_id")));
    [left; reflexivity|].
  destruct (negb (existsb _ (rows d flight))); [left; reflexivity|].
  destruct (negb (existsb _ (rows d passenger))); [left; reflexivity|].
  destruct (truthy (col body "seat_number")) eqn:Ts; cbn [andb].
  - destruct (existsb _ _) eqn:Ex; [left; reflexivity|].
    right. split; [intros _; first [exact Ex | reflexivity]|].
    eexists. split; [reflexivity|]. repeat split; reflexivity.
  - right. split; [discriminate|].
    eexists. split; [reflexivity|]. repeat split; reflexivity.
Qed.

Lemma assignment_of_sym r1 r2 :
  assignment_of (col r1 "flight_id") (col r1 "crew_member_id") r2
  = assignment_of (col r2 "flight_id") (col r2 "crew_member_id") r1.
Proof.
  unfold assignment_of.
  rewrite (sql_eq_sym (col r2 "flight_id")), (sql_eq_sym (col r2 "crew_member_id")).
  reflexivity.
Qed.

Lemma pairs_distinct_filter f rs : pairs_distinct rs -> pairs_distinct (filter f rs).
Proof.
  induction rs as [|r rs IH]; simpl; [tauto|].
  intros [H1 H2]. destruct (f r); simpl; [split; [apply existsb_filter_false, H1|]|];
    exact (IH H2).
Qed.

Lemma pairs_distinct_snoc rs r :
  pairs_distinct rs ->
  existsb (assignment_of (col r "flight_id") (col r "crew_member_id")) rs = false ->
  pairs_distinct (rs ++ [r])%list.
Proof.
  induction rs as [|x rs IH]; simpl; [tauto|].
  intros [H1 H2] H. apply orb_false_iff in H as [Hx Hr].
  split; [|exact (IH H2 Hr)].
  rewrite existsb_app, H1. simpl. rewrite assignment_of_sym, Hx. reflexivity.
Qed.

Lemma crew_assign_accepted d body :
  (code (fst (crew_assign d body)) = 400%Z /\ snd (crew_assign d body) = []) \/
  (code (fst (crew_assign d body)) = 201%Z /\
   truthy (col body "flight_id") = true /\ truthy (col body "crew_member_id") = true /\
   existsb (assignment_of (col body "flight_id") (col body "crew_member_id"))
     (rows d flight_crew) = false /\
   exists r, snd (crew_assign d body) = [Insert flight_crew r] /\
     col r "flight_id" = col body "flight_id" /\
     col r "crew_member_id" = col body "crew_member_id").
Proof.
  unfold crew_assign, select_where. cbv zeta.
  rewrite !length_filter_eqb_0, length_filter_ltb_0.
  destruct (truthy (col body "flight_id")); [|left; split; reflexivity].
  destruct (truthy (col body "crew_member_id")); [|left; split; reflexivity].
  destruct (truthy (col body "role")); [|left; split; reflexivity].
  cbn [negb orb].
  destruct (negb (existsb _ (rows d flight))); [left; split; reflexivity|].
  destruct (negb (existsb _ (rows d crew_member))); [left; split; reflexivity|].
  destruct (negb (js_strict_eq _ _)); [left; split; reflexivity|].
  destruct (existsb _ (rows d flight_crew)); [left; split; reflexivity|].
  right. do 4 (split; [reflexivity|]). eexists. split; [reflexivity|]. split; reflexivity.
Qed.

(** No (flight, crew member) pair is recorded twice, under every request:
    the crew assignment is the only endpoint that adds FlightCrew rows, and
    it refuses a pair that is already present; the other endpoints only
    remove FlightCrew rows, or leave them alone.  Each handler runs as one
    step, as for the e-mails. *)
Theorem assignments_unique_preserved date_value d req :
  assignments_unique d -> assignments_unique (snd (run date_value d req)).
Proof.
  intros Hu. unfold assignments_unique.
  destruct req;
    try (match goal with |- pairs_distinct (rows (snd (run _ _ ?R)) _) =>
           destruct (no_fill_request date_value d R flight_crew eq_refl) as [f Hf] end;
         rewrite Hf; exact (pairs_distinct_filter _ _ Hu)).
  rewrite run_snd. cbn [handle].
  destruct (crew_assign_accepted d body) as [[_ Hn] | [_ [_ [_ [Hex [r [Hs [Hf Hc]]]]]]]].
  - rewrite Hn. exact Hu.
  - rewrite Hs. cbn [exec_all fold_left exec]. rewrite rows_set_rows_same.
    apply pairs_distinct_snoc; [exact Hu|]. rewrite Hf, Hc. exact Hex.
Qed.

Lemma assignments_unique_preserved_witness :
  assignments_unique d0 /\
  assignments_unique (snd (run iso_date_value d0 (CrewAssign (assign_body "f1" "cm1" (Some "Captain"))))).
Proof.
  assert (H : assignments_unique d0) by (split; reflexivity).
  split; [exact H | exact (assignments_unique_preserved iso_date_value d0 _ H)].
Defined.


(** ** Assigning and removing a crew member *)

(** The removal endpoint [DELETE /crew-members/assign] never reaches its own
    handler: the crew member delete answers it, with the id "assign".  So
    after an accepted assignment, in a database where no crew member has the
    id "assign" (ids are uuids), the removal request for the same pair is
    answered 404 "Crew member not found", writes nothing, and the assignment
    stays recorded. *)
Theorem assign_then_unassign_keeps_assignment date_value d body :
  existsb (by_col "id" (Some "assign")) (rows d crew_member) = false ->
  code (fst (run date_value d (CrewAssign body))) = 201%Z ->
  fst (run date_value (snd (run date_value d (CrewAssign body))) (CrewUnassign body))
  = reply 404 "Crew member not found" /\
  snd (run date_value (snd (run date_value d (CrewAssign body))) (CrewUnassign body))
  = snd (run date_value d (CrewAssign body)) /\
  existsb (assignment_of (col body "flight_id") (col body "crew_member_id"))
          (rows (snd (run date_value d (CrewAssign body))) flight_crew) = true.
Proof.
  intros Hn. rewrite !run_fst, !run_snd. cbn [handle].
  destruct (crew_assign_accepted d body)
    as [[Hc _] | [_ [Tf [Tc [Hex [r [Hs [Hf Hcm]]]]]]]].
  { rewrite Hc. intros H; discriminate H. }
  intros _. rewrite Hs. cbn [exec_all fold_left exec].
  assert (Hr : assignment_of (col body "flight_id") (col body "crew_member_id") r = true).
  { unfold assignment_of. rewrite Hf, Hcm, !sql_eq_refl_truthy by assumption. reflexivity. }
  unfold crew_delete, select_where. rewrite length_filter_eqb_0.
  rewrite rows_set_rows_other by discriminate. rewrite Hn. cbn [negb fst snd exec_all fold_left].
  split; [reflexivity|]. split; [reflexivity|].
  rewrite rows_set_rows_same, existsb_app, Hex. cbn [existsb orb]. rewrite Hr. reflexivity.
Qed.

Lemma assign_then_unassign_keeps_assignment_witness :
  existsb (by_col "id" (Some "assign")) (rows d0 crew_member) = false /\
  code (fst (run iso_date_value d0 (CrewAssign (assign_body "f1" "cm1" (Some "Captain")))))
  = 201%Z /\
  fst (run iso_date_value (snd (run iso_date_value d0
         (CrewAssign (assign_body "f1" "cm1" (Some "Captain")))))
       (CrewUnassign (assign_body "f1" "cm1" (Some "Captain"))))
  = reply 404 "Crew member not found".
Proof.
  assert (H1 : existsb (by_col "id" (Some "assign")) (rows d0 crew_member) = false)
    by reflexivity.
  assert (H2 : code (fst (run iso_date_value d0
                 (CrewAssign (assign_body "f1" "cm1" (Some "Captain"))))) = 201%Z)
    by reflexivity.
  split; [exact H1 | split; [exact H2 |]].
  exact (proj1 (assign_then_unassign_keeps_assignment iso_date_value d0 _ H1 H2)).
Defined.

(** ** Deletes *)

(** Deleting an existing crew member always succeeds: it removes every
    FlightCrew row of the crew member, then the crew member's row. *)
Theorem crew_delete_cascade date_value d id :
  existsb (by_col "id" (Some id)) (rows d crew_member) = true ->
  code (fst (run date_value d (CrewDelete id))) = 200%Z /\
  rows (snd (run date_value d (CrewDelete id))) crew_member
  = filter (fun r => negb (by_col "id" (Some id) r)) (rows d crew_member) /\
  rows (snd (run date_value d (CrewDelete id))) flight_crew
  = filter (fun r => negb (by_col "crew_member_id" (Some id) r)) (rows d flight_crew).
Proof.
  intros Hex. rewrite run_fst, run_snd. cbn [handle]. unfold crew_delete, select_where.
  rewrite length_filter_eqb_0, Hex. cbn [negb fst code reply].
  split; [reflexivity|].
  destruct (Nat.ltb 0 (count_where d flight_crew (by_col "crew_member_id" (Some id)))) eqn:Ec.
  - cbn [snd app exec_all fold_left exec]. split.
    + rewrite rows_set_rows_same, rows_set_rows_other by discriminate. reflexivity.
    + rewrite rows_set_rows_other, rows_set_rows_same by discriminate. reflexivity.
  - cbn [snd app exec_all fold_left exec].
    rewrite rows_set_rows_same, rows_set_rows_other by discriminate.
    split; [reflexivity|]. symmetry. apply filter_negb_existsb.
    unfold count_where, select_where in Ec. rewrite length_filter_ltb_0 in Ec. exact Ec.
Qed.

Lemma crew_delete_cascade_witness :
  existsb (by_col "id" (Some "cm1")) (rows d0 crew_member) = true /\
  rows (snd (run iso_date_value d0 (CrewDelete "cm1"))) flight_crew
  = filter (fun r => negb (by_col "crew_member_id" (Some "cm1") r)) (rows d0 flight_crew).
Proof.
  assert (H : existsb (by_col "id" (Some "cm1")) (rows d0 crew_member) = true)
    by reflexivity.
  split; [exact H | exact (proj2 (proj2 (crew_delete_cascade iso_date_value d0 "cm1" H)))].
Defined.

(** A successful delete of an airline, an airport, an aircraft or a
    passenger leaves no row with the deleted id and no row that references
    it: these deletes succeed only when nothing references the row, and they
    remove nothing else. *)
Theorem guarded_delete_leaves_no_reference date_value d id :
  (code (fst (run date_value d (AirlinesDelete id))) = 200%Z ->
   existsb (by_col "id" (Some id)) (rows (snd (run date_value d (AirlinesDelete id))) airline)
   = false /\
   existsb (by_col "airline_id" (Some id))
     (rows (snd (run date_value d (AirlinesDelete id))) aircraft) = false /\
   existsb (by_col "airline_id" (Some id))
     (rows (snd (run date_value d (AirlinesDelete id))) flight) = false /\
   existsb (by_col "airline_id" (Some id))
     (rows (snd (run date_value d (AirlinesDelete id))) crew_member) = false) /\
  (code (fst (run date_value d (AirportsDelete id))) = 200%Z ->
   existsb (by_col "id" (Some id)) (rows (snd (run date_value d (AirportsDelete id))) airport)
   = false /\
   existsb (by_col "departure_airport_id" (Some id))
     (rows (snd (run date_value d (AirportsDelete id))) flight) = false /\
   existsb (by_col "arrival_airport_id" (Some id))
     (rows (snd (run date_value d (AirportsDelete id))) flight) = false) /\
  (code (fst (run date_value d (AircraftDelete id))) = 200%Z ->
   existsb (by_col "id" (Some id)) (rows (snd (run date_value d (AircraftDelete id))) aircraft)
   = false /\
   existsb (by_col "aircraft_id" (Some id))
     (rows (snd (run date_value d (AircraftDelete id))) flight) = false) /\
  (code (fst (run date_value d (PassengersDelete id))) = 200%Z ->
   existsb (by_col "id" (Some id))
     (rows (snd (run date_value d (PassengersDelete id))) passenger) = false /\
   existsb (by_col "passenger_id" (Some id))
     (rows (snd (run date_value d (PassengersDelete id))) booking) = false).
Proof.
  rewrite !run_fst, !run_snd. cbn [handle].
  unfold airlines_delete, airports_delete, aircraft_delete, passengers_delete,
    count_where, select_where.
  cbv zeta. rewrite !length_filter_eqb_0, !length_filter_ltb_0.
  split; [|split; [|split]]; intros H;
  match goal with |- context [if negb ?c then _ else _] => destruct c end;
  cbn [negb fst code reply] in H |- *; try discriminate H;
  match goal with |- context [if ?c then _ else _] => destruct c eqn:E end;
  cbn [fst code reply] in H; try discriminate H;
  cbn [snd exec_all fold_left exec];
  repeat split;
  rewrite ?rows_set_rows_same, ?rows_set_rows_other by discriminate;
  first [apply existsb_filter_negb | exact E | rewrite !orb_false_iff in E; tauto].
Qed.

Lemma guarded_delete_leaves_no_reference_witness :
  code (fst (run iso_date_value d0 (PassengersDelete "p2"))) = 200%Z /\
  existsb (by_col "passenger_id" (Some "p2"))
    (rows (snd (run iso_date_value d0 (PassengersDelete "p2"))) booking) = false.
Proof.
  assert (H : code (fst (run iso_date_value d0 (PassengersDelete "p2"))) = 200%Z)
    by reflexivity.
  split; [exact H|].
  exact (proj2 (proj2 (proj2 (proj2 (guarded_delete_leaves_no_reference iso_date_value d0 "p2"))) H)).
Defined.

(** ** Bookings *)

(** A booking created with a fresh id and then deleted by that id leaves the
    database as it was: the delete succeeds and removes exactly the new row. *)
Theorem booking_create_then_delete date_value d i now body :
  existsb (by_col "id" (Some i)) (rows d booking) = false ->
  code (fst (run date_value d (BookingsPost i now body))) = 201%Z ->
  code (fst (run date_value (snd (run date_value d (BookingsPost i now body)))
                 (BookingsDelete i))) = 200%Z /\
  snd (run date_value (snd (run date_value d (BookingsPost i now body))) (BookingsDelete i))
  = d.
Proof.
  intros Hfresh. rewrite !run_fst, !run_snd. cbn [handle].
  destruct (bookings_post_accepted d i now body) as [[Hc _] | [_ [_ [r [Hs [Hi _]]]]]].
  { rewrite Hc. intros H; discriminate H. }
  intros _. rewrite Hs. cbn [exec_all fold_left exec].
  assert (Hr : by_col "id" (Some i) r = true).
  { unfold by_col. rewrite Hi. simpl. apply String.eqb_refl. }
  unfold bookings_delete, select_where.
  rewrite length_filter_eqb_0, rows_set_rows_same, existsb_app, Hfresh.
  cbn [existsb orb]. rewrite Hr. cbn [negb orb fst snd code reply].
  split; [reflexivity|].
  cbn [exec_all fold_left exec].
  rewrite rows_set_rows_same, set_rows_set_rows, filter_app, filter_negb_existsb by exact Hfresh.
  cbn [filter]. rewrite Hr. cbn [negb]. rewrite app_nil_r. apply set_rows_rows.
Qed.

Lemma booking_create_then_delete_witness :
  existsb (by_col "id" (Some "b9")) (rows d0 booking) = false /\
  code (fst (run iso_date_value d0 booking_request_b9)) = 201%Z /\
  snd (run iso_date_value (snd (run iso_date_value d0 booking_request_b9))
         (BookingsDelete "b9")) = d0.
Proof.
  assert (H1 : existsb (by_col "id" (Some "b9")) (rows d0 booking) = false) by reflexivity.
  assert (H2 : code (fst (run iso_date_value d0 booking_request_b9)) = 201%Z) by reflexivity.
  split; [exact H1 | split; [exact H2 |]].
  exact (proj2 (booking_create_then_delete iso_date_value d0 "b9" _ _ H1 H2)).
Defined.

(** The booking create stores the server's [new Date()] as [booking_date],
    whatever the body holds, and "Confirmed" as [booking_status] when the
    body gives none (or an empty one). *)
Theorem booking_create_defaults date_value d i now body :
  code (fst (run date_value d (BookingsPost i now body))) = 201%Z ->
  exists r,
    rows (snd (run date_value d (BookingsPost i now body))) booking
    = (rows d booking ++ [r])%list /\
    col r "booking_date" = now /\
    col r "booking_status" = (if truthy (col body "booking_status")
                              then col body "booking_status" else Some "Confirmed").
Proof.
  rewrite run_fst, run_snd. cbn [handle].
  destruct (bookings_post_accepted d i now body)
    as [[Hc _] | [_ [_ [r [Hs [_ [_ [_ [_ [Hd Hst]]]]]]]]]].
  { rewrite Hc. intros H; discriminate H. }
  intros _. exists r. rewrite Hs. cbn [exec_all fold_left exec].
  rewrite rows_set_rows_same. split; [reflexivity | split; assumption].
Qed.

Lemma booking_create_defaults_witness :
  code (fst (run iso_date_value d0 booking_request_b9)) = 201%Z /\
  exists r,
    rows (snd (run iso_date_value d0 booking_request_b9)) booking
    = (rows d0 booking ++ [r])%list /\
    col r "booking_date" = Some "2024-03-01T00:00:00Z" /\
    col r "booking_status" = Some "Confirmed".
Proof.
  assert (H : code (fst (run iso_date_value d0 booking_request_b9)) = 201%Z) by reflexivity.
  split; [exact H | exact (booking_create_defaults iso_date_value d0 _ _ _ H)].
Defined.

(** A booking update never changes the id or the [booking_date] of any
    booking, nor the number and order of the bookings: its SET list has
    neither column. *)
Theorem booking_update_keeps_dates date_value d id body :
  map (fun r => (col r "id", col r "booking_date"))
      (rows (snd (run date_value d (BookingsPut id body))) booking)
  = map (fun r => (col r "id", col r "booking_date")) (rows d booking).
Proof.
  rewrite run_snd. cbn [handle].
  destruct (bookings_put_accepted d id body) as [Hn | [_ [s [Hs [Si [Sb _]]]]]].
  - rewrite Hn. reflexivity.
  - rewrite Hs. cbn [exec_all fold_left exec]. rewrite rows_set_rows_same, map_map.
    apply map_ext. intros r.
    destruct (by_col "id" (Some id) r); [rewrite !col_set_cols_absent by assumption|];
      reflexivity.
Qed.

(** ** Aircraft and crew updates *)

Lemma aircraft_put_accepted d id body :
  code (fst (aircraft_put d id body)) = 200%Z ->
  existsb (by_col "id" (Some id)) (rows d aircraft) = true /\
  exists s, snd (aircraft_put d id body) = [Update aircraft (by_col "id" (Some id)) s] /\
    has_col s "id" = false /\ has_col s "airline_id" = true /\
    col s "airline_id" = col body "airline_id".
Proof.
  unfold aircraft_put, update_returning, select_where. cbv zeta.
  rewrite length_map, !length_filter_eqb_0.
  destruct (negb (truthy (col body "registration_number")) || negb (truthy (col body "model")));
    [cbn [fst code reply]; intros H; discriminate H|].
  destruct (truthy (col body "airline_id") && negb (existsb _ (rows d airline)));
    [cbn [fst code reply]; intros H; discriminate H|].
  destruct (existsb (by_col "id" (Some id)) (rows d aircraft));
    cbn [negb]; [|cbn [fst code reply]; intros H; discriminate H].
  intros _. split; [reflexivity|]. eexists. split; [reflexivity|]. repeat split; reflexivity.
Qed.

(** An aircraft update checks only that the new airline exists, never the
    flights that use the aircraft: when a flight uses the aircraft and the
    body names another airline than the flight's, the accepted update leaves
    the flight operated with an aircraft of a different airline, the
    relation that the flight create and update handlers enforce. *)
Theorem aircraft_update_breaks_flight_airline date_value d id body f :
  keyed_rows d aircraft ["airline_id"] ->
  code (fst (run date_value d (AircraftPut id body))) = 200%Z ->
  In f (rows d flight) -> col f "aircraft_id" = Some id ->
  js_strict_eq (col body "airline_id") (col f "airline_id") = false ->
  ~ flights_match_aircraft (snd (run date_value d (AircraftPut id body))).
Proof.
  intros Hk H200 Hf Hfa Hne Hm.
  rewrite run_fst in H200. cbn [handle] in H200.
  destruct (aircraft_put_accepted d id body H200) as [Hex [s [Hs [Si [Sh Sa]]]]].
  apply existsb_exists in Hex as [a [Ha Hb]].
  rewrite run_snd in Hm. cbn [handle] in Hm. rewrite Hs in Hm.
  cbn [exec_all fold_left exec] in Hm.
  specialize (Hm f (set_cols s a)).
  rewrite rows_set_rows_other in Hm by discriminate. rewrite rows_set_rows_same in Hm.
  assert (Ha' : In (set_cols s a)
                  (map (fun r => if by_col "id" (Some id) r then set_cols s r else r)
                       (rows d aircraft))).
  { apply in_map_iff. exists a. rewrite Hb. split; [reflexivity | exact Ha]. }
  assert (Hp : by_col "id" (col f "aircraft_id") (set_cols s a) = true).
  { unfold by_col. rewrite col_set_cols_absent by exact Si. rewrite Hfa. exact Hb. }
  specialize (Hm Hf Ha' Hp).
  rewrite col_set_cols, Sh, Sa in Hm
    by (apply (keyed_has_col _ _ _ _ _ Hk Ha); left; reflexivity).
  congruence.
Qed.

Lemma keyed_d0_aircraft : keyed_rows d0 aircraft ["airline_id"].
Proof.
  intros r Hr. simpl in Hr.
  destruct Hr as [<-|[]]; (split; [eexists; reflexivity | reflexivity]).
Qed.

Lemma aircraft_update_breaks_flight_airline_witness :
  code (fst (run iso_date_value d0 (AircraftPut "ac1" aircraft_body_a2))) = 200%Z /\
  ~ flights_match_aircraft (snd (run iso_date_value d0 (AircraftPut "ac1" aircraft_body_a2))).
Proof.
  assert (H : code (fst (run iso_date_value d0 (AircraftPut "ac1" aircraft_body_a2))) = 200%Z)
    by reflexivity.
  split; [exact H|].
  apply (aircraft_update_breaks_flight_airline iso_date_value d0 "ac1" aircraft_body_a2
           (flight_row "f1" "ap1" "ap2" "ac1" "a1") keyed_d0_aircraft H);
    [left; reflexivity | reflexivity | reflexivity].
Defined.

(** ** Flight writes and the aircraft's airline *)

(** When the flight checks pass, the first aircraft with the body's
    [aircraft_id] belongs to the body's airline. *)
Lemma flight_checks_none date_value d body :
  flight_checks date_value d body = None ->
  exists h, In h (rows d aircraft) /\ by_col "id" (col body "aircraft_id") h = true /\
    js_strict_eq (col h "airline_id") (col body "airline_id") = true.
Proof.
  unfold flight_checks, select_where. cbv zeta.
  rewrite hd_filter_find, !length_filter_eqb_0.
  destruct (truthy (col body "flight_number")); [|intros H; discriminate H].
  destruct (truthy (col body "departure_airport_id")); [|intros H; discriminate H].
  destruct (truthy (col body "arrival_airport_id")); [|intros H; discriminate H].
  destruct (truthy (col body "departure_time")); [|intros H; discriminate H].
  destruct (truthy (col body "arrival_time")); [|intros H; discriminate H].
  destruct (truthy (col body "aircraft_id")); [|intros H; discriminate H].
  destruct (truthy (col body "airline_id")); [|intros H; discriminate H].
  cbn [negb orb].
  destruct (js_strict_eq _ _); [intros H; discriminate H|].
  destruct (js_date_ge _ _); [intros H; discriminate H|].
  destruct (negb (existsb _ (rows d airport))); [intros H; discriminate H|].
  destruct (negb (existsb _ (rows d airport))); [intros H; discriminate H|].
  destruct (existsb (by_col "id" (col body "aircraft_id")) (rows d aircraft)) eqn:Eac;
    cbn [negb]; [|intros H; discriminate H].
  destruct (negb (existsb _ (rows d airline))); [intros H; discriminate H|].
  match goal with |- context [match ?m with Some r => r | None => _ end] =>
    destruct m as [h|] eqn:F end.
  - apply find_some in F as [Hh Hw].
    destruct (js_strict_eq (col h "airline_id") (col body "airline_id")) eqn:E;
      cbn [negb]; [|intros H; discriminate H].
    intros _. exists h. auto.
  - assert (Hn : existsb (by_col "id" (col body "aircraft_id")) (rows d aircraft) = false)
      by (apply find_none_existsb; exact F).
    congruence.
Qed.

Lemma aircraft_of_flight d body h a :
  aircraft_ids_unique d -> In h (rows d aircraft) -> In a (rows d aircraft) ->
  by_col "id" (col body "aircraft_id") h = true ->
  by_col "id" (col body "aircraft_id") a = true -> a = h.
Proof.
  intros Hu Hh Ha Bh Ba. symmetry. apply (Hu h a Hh Ha).
  unfold by_col in *. destruct (sql_eq_true _ _ Bh) as [E _]. rewrite E. exact Ba.
Qed.

(** The flight create and update keep every flight's aircraft in the
    flight's airline, in a database where aircraft ids are unique and every
    flight row has the [aircraft_id] and [airline_id] columns: the check
    reads the first aircraft with the requested id, which is then the only
    one. *)
Theorem flight_writes_keep_aircraft_airline date_value d :
  aircraft_ids_unique d -> keyed_rows d flight ["aircraft_id"; "airline_id"] ->
  flights_match_aircraft d ->
  (forall i body, flights_match_aircraft (snd (run date_value d (FlightsPost i body)))) /\
  (forall id body, flights_match_aircraft (snd (run date_value d (FlightsPut id body)))).
Proof.
  intros Hu Hk Hm. split.
  - intros i body. rewrite run_snd. cbn [handle]. unfold flights_post.
    destruct (flight_checks date_value d body) eqn:Fc; [exact Hm|].
    destruct (flight_checks_none _ _ _ Fc) as [h [Hh [Bh Jh]]].
    cbn [snd exec_all fold_left exec]. intros f a Hf Ha Hb.
    rewrite rows_set_rows_same in Hf. rewrite rows_set_rows_other in Ha by discriminate.
    apply in_app_or in Hf as [Hf | [<- | []]]; [exact (Hm f a Hf Ha Hb)|].
    cbn [col String.eqb Ascii.eqb Bool.eqb] in Hb |- *.
    rewrite (aircraft_of_flight d body h a Hu Hh Ha Bh Hb). exact Jh.
  - intros id body. rewrite run_snd. cbn [handle]. unfold flights_put, select_where.
    rewrite length_filter_eqb_0.
    destruct (negb (existsb _ _)); [exact Hm|].
    destruct (flight_checks date_value d body) eqn:Fc; [exact Hm|].
    destruct (flight_checks_none _ _ _ Fc) as [h [Hh [Bh Jh]]].
    cbn [snd exec_all fold_left exec]. intros f' a Hf Ha Hb.
    rewrite rows_set_rows_same in Hf. rewrite rows_set_rows_other in Ha by discriminate.
    apply in_map_iff in Hf as [f [<- Hf]].
    destruct (by_col "id" (Some id) f); [|exact (Hm f a Hf Ha Hb)].
    rewrite col_set_cols in Hb |- * by
      (apply (keyed_has_col _ _ _ _ _ Hk Hf); simpl; tauto).
    cbn [has_col col String.eqb Ascii.eqb Bool.eqb orb] in Hb |- *.
    rewrite (aircraft_of_flight d body h a Hu Hh Ha Bh Hb). exact Jh.
Qed.

Lemma aircraft_ids_unique_d0 : aircraft_ids_unique d0.
Proof.
  intros a1 a2 H1 H2 _. simpl in H1, H2.
  destruct H1 as [<-|[]]; destruct H2 as [<-|[]]; reflexivity.
Qed.

Lemma keyed_d0_flight : keyed_rows d0 flight ["aircraft_id"; "airline_id"].
Proof.
  intros r Hr. simpl in Hr.
  destruct Hr as [<-|[<-|[]]]; (split; [eexists; reflexivity | reflexivity]).
Qed.

Lemma flights_match_aircraft_d0 : flights_match_aircraft d0.
Proof.
  intros f a Hf Ha _. simpl in Hf, Ha.
  destruct Hf as [<-|[<-|[]]]; destruct Ha as [<-|[]]; reflexivity.
Qed.

Lemma flight_writes_keep_aircraft_airline_witness :
  aircraft_ids_unique d0 /\ keyed_rows d0 flight ["aircraft_id"; "airline_id"] /\
  flights_match_aircraft d0 /\
  flights_match_aircraft (snd (run iso_date_value d0 (FlightsPost "f9" good_flight_body))).
Proof.
  split; [exact aircraft_ids_unique_d0|].
  split; [exact keyed_d0_flight|].
  split; [exact flights_match_aircraft_d0|].
  exact (proj1 (flight_writes_keep_aircraft_airline iso_date_value d0 aircraft_ids_unique_d0
                  keyed_d0_flight flights_match_aircraft_d0) "f9" good_flight_body).
Defined.

(** ** Crew assignments and later updates *)

Lemma crew_put_accepted d id body :
  code (fst (crew_put d id body)) = 200%Z ->
  existsb (by_col "id" (Some id)) (rows d crew_member) = true /\
  exists s, snd (crew_put d id body) = [Update crew_member (by_col "id" (Some id)) s] /\
    has_col s "id" = false /\ has_col s "airline_id" = true /\
    col s "airline_id" = col body "airline_id".
Proof.
  unfold crew_put, select_where. cbv zeta.
  rewrite !length_filter_eqb_0.
  destruct (existsb (by_col "id" (Some id)) (rows d crew_member));
    cbn [negb]; [|cbn [fst code reply]; intros H; discriminate H].
  destruct (negb (truthy (col body "first_name")) || negb (truthy (col body "last_name"))
            || negb (truthy (col body "position")) || negb (truthy (col body "airline_id")));
    [cbn [fst code reply]; intros H; discriminate H|].
  destruct (negb (existsb _ (rows d airline))); [cbn [fst code reply]; intros H; discriminate H|].
  intros _. split; [reflexivity|]. eexists. split; [reflexivity|]. repeat split; reflexivity.
Qed.

Lemma flights_put_accepted date_value d id body :
  code (fst (flights_put date_value d id body)) = 200%Z ->
  existsb (by_col "id" (Some id)) (rows d flight) = true /\
  exists s, snd (flights_put date_value d id body) = [Update flight (by_col "id" (Some id)) s] /\
    has_col s "id" = false /\ has_col s "airline_id" = true /\
    col s "airline_id" = col body "airline_id".
Proof.
  unfold flights_put, select_where. cbv zeta.
  rewrite length_filter_eqb_0.
  destruct (existsb (by_col "id" (Some id)) (rows d flight));
    cbn [negb]; [|cbn [fst code reply]; intros H; discriminate H].
  destruct (flight_checks date_value d body); [cbn [fst code reply]; intros H; discriminate H|].
  intros _. split; [reflexivity|]. eexists. split; [reflexivity|]. repeat split; reflexivity.
Qed.

(** A crew member update checks only that the new airline exists, never the
    crew member's flight assignments: when the crew member is assigned to a
    flight and the body names another airline than the flight's, the
    accepted update leaves a crew member assigned to a flight of another
    airline, the relation that the crew assignment handler enforces. *)
Theorem crew_update_breaks_assignment_airline date_value d id body fc f :
  keyed_rows d crew_member ["airline_id"] ->
  code (fst (run date_value d (CrewPut id body))) = 200%Z ->
  In fc (rows d flight_crew) -> col fc "crew_member_id" = Some id ->
  In f (rows d flight) -> by_col "id" (col fc "flight_id") f = true ->
  js_strict_eq (col body "airline_id") (col f "airline_id") = false ->
  ~ crew_match_flights (snd (run date_value d (CrewPut id body))).
Proof.
  intros Hk H200 Hfc Hcid Hf Hff Hne Hm.
  rewrite run_fst in H200. cbn [handle] in H200.
  destruct (crew_put_accepted d id body H200) as [Hex [s [Hs [Si [Sh Sa]]]]].
  apply existsb_exists in Hex as [c [Hc Hb]].
  rewrite run_snd in Hm. cbn [handle] in Hm. rewrite Hs in Hm.
  cbn [exec_all fold_left exec] in Hm.
  specialize (Hm fc f (set_cols s c)).
  rewrite !rows_set_rows_other, rows_set_rows_same in Hm by discriminate.
  assert (Hc' : In (set_cols s c)
                  (map (fun r => if by_col "id" (Some id) r then set_cols s r else r)
                       (rows d crew_member))).
  { apply in_map_iff. exists c. rewrite Hb. split; [reflexivity | exact Hc]. }
  assert (Hp : by_col "id" (col fc "crew_member_id") (set_cols s c) = true).
  { unfold by_col. rewrite col_set_cols_absent by exact Si. rewrite Hcid. exact Hb. }
  specialize (Hm Hfc Hf Hc' Hff Hp).
  rewrite col_set_cols, Sh, Sa in Hm
    by (apply (keyed_has_col _ _ _ _ _ Hk Hc); left; reflexivity).
  congruence.
Qed.

Lemma keyed_d0_crew : keyed_rows d0 crew_member ["airline_id"].
Proof.
  intros r Hr. simpl in Hr.
  destruct Hr as [<-|[<-|[]]]; (split; [eexists; reflexivity | reflexivity]).
Qed.

Lemma crew_update_breaks_assignment_airline_witness :
  code (fst (run iso_date_value d0 (CrewPut "cm1" crew_body_a2))) = 200%Z /\
  ~ crew_match_flights (snd (run iso_date_value d0 (CrewPut "cm1" crew_body_a2))).
Proof.
  assert (H : code (fst (run iso_date_value d0 (CrewPut "cm1" crew_body_a2))) = 200%Z)
    by reflexivity.
  split; [exact H|].
  apply (crew_update_breaks_assignment_airline iso_date_value d0 "cm1" crew_body_a2
           (flight_crew_row "f2" "cm1" "Captain") (flight_row "f2" "ap2" "ap1" "ac1" "a1")
           keyed_d0_crew H);
    [left; reflexivity | reflexivity | right; left; reflexivity | reflexivity | reflexivity].
Defined.

(** A flight update checks the new airline against the new aircraft, never
    against the crew assigned to the flight: when a crew member of another
    airline than the body's is assigned to the flight, the accepted update
    leaves that crew member assigned to a flight of another airline. *)
Theorem flight_update_breaks_assignment_airline date_value d id body fc c :
  keyed_rows d flight ["airline_id"] ->
  code (fst (run date_value d (FlightsPut id body))) = 200%Z ->
  In fc (rows d flight_crew) -> col fc "flight_id" = Some id ->
  In c (rows d crew_member) -> by_col "id" (col fc "crew_member_id") c = true ->
  js_strict_eq (col c "airline_id") (col body "airline_id") = false ->
  ~ crew_match_flights (snd (run date_value d (FlightsPut id body))).
Proof.
  intros Hk H200 Hfc Hfid Hc Hcc Hne Hm.
  rewrite run_fst in H200. cbn [handle] in H200.
  destruct (flights_put_accepted date_value d id body H200) as [Hex [s [Hs [Si [Sh Sa]]]]].
  apply existsb_exists in Hex as [f [Hf Hb]].
  rewrite run_snd in Hm. cbn [handle] in Hm. rewrite Hs in Hm.
  cbn [exec_all fold_left exec] in Hm.
  specialize (Hm fc (set_cols s f) c).
  rewrite rows_set_rows_same in Hm.
  do 2 (rewrite rows_set_rows_other in Hm by discriminate).
  assert (Hf' : In (set_cols s f)
                  (map (fun r => if by_col "id" (Some id) r then set_cols s r else r)
                       (rows d flight))).
  { apply in_map_iff. exists f. rewrite Hb. split; [reflexivity | exact Hf]. }
  assert (Hp : by_col "id" (col fc "flight_id") (set_cols s f) = true).
  { unfold by_col. rewrite col_set_cols_absent by exact Si. rewrite Hfid. exact Hb. }
  specialize (Hm Hfc Hf' Hc Hp Hcc).
  rewrite col_set_cols, Sh, Sa in Hm
    by (apply (keyed_has_col _ _ _ _ _ Hk Hf); left; reflexivity).
  congruence.
Qed.

Lemma keyed_d0_with_ac2_flight : keyed_rows d0_with_ac2 flight ["airline_id"].
Proof.
  intros r Hr. simpl in Hr.
  destruct Hr as [<-|[<-|[]]]; (split; [eexists; reflexivity | reflexivity]).
Qed.

Lemma flight_update_breaks_assignment_airline_witness :
  code (fst (run iso_date_value d0_with_ac2 (FlightsPut "f2" flight_f2_to_a2))) = 200%Z /\
  ~ crew_match_flights (snd (run iso_date_value d0_with_ac2 (FlightsPut "f2" flight_f2_to_a2))).
Proof.
  assert (H : code (fst (run iso_date_value d0_with_ac2 (FlightsPut "f2" flight_f2_to_a2)))
              = 200%Z) by reflexivity.
  split; [exact H|].
  apply (flight_update_breaks_assignment_airline iso_date_value d0_with_ac2 "f2" flight_f2_to_a2
           (flight_crew_row "f2" "cm1" "Captain") (crew_row "cm1" "a1")
           keyed_d0_with_ac2_flight H);
    [left; reflexivity | reflexivity | left; reflexivity | reflexivity | reflexivity].
Defined.
